(** * Pose extractor and dependency prober: a shallow embedding

    The two scripts of [python-scripts/] are embedded as programs in a
    small trace-and-exception monad.  Everything the scripts obtain from
    outside the interpreter (which libraries import, [sys.argv], the file
    system, OpenCV, the MediaPipe pose model) is read from a [World]
    record, so that a theorem quantified over [World] speaks about every
    run of the script.

    Python [float]s are IEEE 754 binary64 numbers: they are modelled by the
    Standard Library's [spec_float] with [prec = 53] and [emax = 1024], and
    [+] and [/] by [SFadd] and [SFdiv], which round to nearest, ties to
    even.

    What the embedding leaves out: the text [json.dumps] produces (a run
    records the value handed to [print(json.dumps(...))], and printing
    does not fail), the write to [os.environ] at the top of
    [extract_pose.py], and exceptions that do not derive from [Exception]
    other than the [SystemExit] of [sys.exit].  An [import] that fails
    raises whatever the world says: [ImportError] when the library is not
    installed, any other exception when the library's own start-up code
    breaks.  [str] of an [int] follows CPython 3.11: it raises
    [ValueError] above 4300 digits. *)

From Stdlib Require Import ZArith List String Ascii Bool Lia.
From Stdlib Require Import DecimalString.
From Stdlib Require DecimalPos DecimalZ.
From Stdlib Require Import Floats.SpecFloat.
From Stdlib Require Import QArith Qabs Qpower.
Import ListNotations.
Local Open Scope string_scope.
Local Open Scope Z_scope.

(** ** Python values that reach [json.dumps] *)

Module Py.

(** binary64 *)
Definition prec : Z := 53.
Definition emax : Z := 1024.
Definition float := spec_float.

(** The literal [0.0]. *)
Definition zero : float := S754_zero false.
(** [a + b] and [a / b] on floats. *)
Definition fadd : float -> float -> float := SFadd prec emax.
Definition fdiv : float -> float -> float := SFdiv prec emax.
(** Conversion of an [int] to [float], as done by [float / int]. *)
Definition float_of_int (n : Z) : float := binary_normalize prec emax n 0 false.

(** JSON-serialisable values.  A [dict] keeps insertion order, so it is an
    association list. *)
#[warnings="-register-all"]
Inductive value : Type :=
| Bool (b : bool)
| Int (n : Z)
| Float (f : float)
| Str (s : string)
| List (l : list value)
| Dict (d : list (string * value)).

(** [d[k]] on an association list, [None] for a missing key. *)
Fixpoint assoc_get (k : string) (d : list (string * value)) : option value :=
  match d with
  | [] => None
  | (k', v) :: d' => if String.eqb k k' then Some v else assoc_get k d'
  end.

Definition get (k : string) (v : value) : option value :=
  match v with
  | Dict d => assoc_get k d
  | _ => None
  end.

(** [d[k] = v]: an existing key keeps its position, a new key goes last. *)
Fixpoint assoc_set (k : string) (v : value) (d : list (string * value))
  : list (string * value) :=
  match d with
  | [] => [(k, v)]
  | (k', v') :: d' =>
      if String.eqb k k' then (k, v) :: d' else (k', v') :: assoc_set k v d'
  end.

(** [d.values()] *)
Definition values (d : list (string * value)) : list value := map snd d.

(** Truth value of an object, as tested by [if], [not] and [all]. *)
Definition truthy (v : value) : bool :=
  match v with
  | Bool b => b
  | Int n => negb (n =? 0)
  | Float f => negb (SFeqb f zero)
  | Str s => negb (String.eqb s "")
  | List l => match l with [] => false | _ => true end
  | Dict d => match d with [] => false | _ => true end
  end.

(** [all(iterable)] *)
Definition all (l : list value) : bool := forallb truthy l.

(** [needle in hay] on strings. *)
Fixpoint contains (needle hay : string) : bool :=
  String.prefix needle hay ||
  match hay with
  | EmptyString => false
  | String _ hay' => contains needle hay'
  end.

(** An exception object derived from [Exception]: its class as far as the
    scripts distinguish it, and [str(e)]. *)
Record exception : Type := {
  is_ImportError : bool;
  exc_str : string
}.

Definition IndexError (msg : string) : exception :=
  {| is_ImportError := false; exc_str := msg |}.
Definition ImportError (msg : string) : exception :=
  {| is_ImportError := true; exc_str := msg |}.
Definition ValueError (msg : string) : exception :=
  {| is_ImportError := false; exc_str := msg |}.

(** What leaves a block abnormally.  [SystemExit] derives from
    [BaseException] only, so [except Exception] does not catch it. *)
Inductive signal : Type :=
| Exc (e : exception)
| SystemExit (code : Z).

(** Outcome of a call into foreign code. *)
Inductive ret (A : Type) : Type :=
| Returns (a : A)
| Raises (e : exception).
Arguments Returns {A} a.
Arguments Raises {A} e.

(** [len(l)] *)
Definition len {A} (l : list A) : Z := Z.of_nat (List.length l).

(** [sys.maxsize]: no sequence holds more items. *)
Definition sys_maxsize : Z := 2 ^ 63 - 1.

(** The decimal digits of [n], after a [-] when [n] is negative. *)
Definition decimal (n : Z) : string := NilZero.string_of_int (Z.to_int n).

(** [sys.get_int_max_str_digits()], as the interpreter starts. *)
Definition int_max_str_digits : Z := 4300.

(** [str(n)] for an [int], which is also what [f"{n}"] produces: the
    decimal digits, unless there are more than [int_max_str_digits] of
    them, in which case the conversion raises [ValueError]. *)
Definition str_of_int (n : Z) : ret string :=
  if 10 ^ int_max_str_digits <=? Z.abs n
  then Raises (ValueError "Exceeds the limit (4300 digits) for integer string conversion; use sys.set_int_max_str_digits() to increase the limit")
  else Returns (decimal n).

(** [l[i]] on a list: negative indices count from the end, and an index
    out of range raises [IndexError]. *)
Definition getitem {A} (l : list A) (i : Z) : ret A :=
  let j := if i <? 0 then len l + i else i in
  if j <? 0 then Raises (IndexError "list index out of range")
  else match nth_error l (Z.to_nat j) with
       | Some a => Returns a
       | None => Raises (IndexError "list index out of range")
       end.

End Py.

Import Py.

(** ** The outside world *)

(** A decoded image: only [image.shape[:2]] is read by the script. *)
Record Image : Type := {
  shape_height : Z;
  shape_width : Z;
  pixels : list Z
}.

(** The keyword arguments of [mp.solutions.pose.Pose(...)]. *)
Record PoseOptions : Type := {
  static_image_mode : bool;
  model_complexity : Z;
  enable_segmentation : bool;
  min_detection_confidence : float
}.

(** One entry of [results.pose_landmarks.landmark]. *)
Module Landmark.
Record t : Type := {
  x : float;
  y : float;
  z : float;
  visibility : float
}.
End Landmark.

Record World : Type := {
  (** [sys.argv] and [sys.version] *)
  sys_argv : list string;
  sys_version : string;
  (** [import lib]: [None] when the library loads, [Some e] when the
      statement raises [e]: an [ImportError] (or its subclass
      [ModuleNotFoundError]) when the library is not installed, any other
      exception when the code the library runs on import fails. *)
  import_error : string -> option exception;
  (** [traceback.format_exc()] while the exception is being handled *)
  traceback_format_exc : exception -> string;
  (** [mp.solutions.pose.Pose(...)] *)
  Pose_new : PoseOptions -> ret unit;
  (** [Path(p).is_file()] *)
  is_file : string -> ret bool;
  (** [cv2.imread(p)], [None] when the file does not decode *)
  cv2_imread : string -> ret (option Image);
  (** [cv2.cvtColor(image, cv2.COLOR_BGR2RGB)] *)
  cv2_cvtColor : Image -> ret Image;
  (** [self.pose.process(image_rgb).pose_landmarks], [None] when no pose
      is found *)
  pose_process : Image -> ret (option (list Landmark.t));
  (** the landmarks are a sequence, of at most [sys.maxsize] items *)
  landmarks_fit : forall image_rgb landmarks,
    pose_process image_rgb = Returns (Some landmarks) ->
    len landmarks <= sys_maxsize
}.

(** ** Processes: a trace of observable events, and exceptions *)

Inductive event : Type :=
| EImport (lib : string)
| EArgv
| EPoseNew (options : PoseOptions)
| EIsFile (path : string)
| EImread (path : string)
| ECvtColor (img : Image)
| EProcess (img : Image)
| EPrint (v : value).

Inductive res (A : Type) : Type :=
| Ok (a : A)
| Sig (s : signal).
Arguments Ok {A} a.
Arguments Sig {A} s.

(** A computation extends the trace (chronological order) and either
    yields a value or is left by a signal. *)
Definition proc (A : Type) : Type := list event -> res A * list event.

Definition pure {A} (a : A) : proc A := fun t => (Ok a, t).

Definition bind {A B} (c : proc A) (k : A -> proc B) : proc B :=
  fun t =>
    match c t with
    | (Ok a, t') => k a t'
    | (Sig s, t') => (Sig s, t')
    end.

Declare Scope proc_scope.
Delimit Scope proc_scope with proc.
Notation "x <- c ;; k" := (bind c (fun x => k))
  (at level 61, c at next level, right associativity) : proc_scope.
Notation "c ;; k" := (bind c (fun _ => k))
  (at level 61, right associativity) : proc_scope.
Local Open Scope proc_scope.

Definition emit (ev : event) : proc unit := fun t => (Ok tt, (t ++ [ev])%list).

Definition raise {A} (s : signal) : proc A := fun t => (Sig s, t).

(** A foreign call: log it, then return or raise as the world says. *)
Definition call {A} (ev : event) (r : ret A) : proc A :=
  emit ev ;;
  match r with
  | Returns a => pure a
  | Raises e => raise (Exc e)
  end.

(** [try: body  except Exception as e: handler] *)
Definition try_except_Exception {A} (body : proc A) (handler : exception -> proc A)
  : proc A :=
  fun t =>
    match body t with
    | (Sig (Exc e), t') => handler e t'
    | r => r
    end.

(** [try: body  except ImportError as e: handler] *)
Definition try_except_ImportError {A} (body : proc A) (handler : exception -> proc A)
  : proc A :=
  fun t =>
    match body t with
    | (Sig (Exc e), t') =>
        if is_ImportError e then handler e t' else (Sig (Exc e), t')
    | r => r
    end.

(** [print(json.dumps(v))] *)
Definition print_json (v : value) : proc unit := emit (EPrint v).

(** [sys.exit(code)] *)
Definition sys_exit {A} (code : Z) : proc A := raise (SystemExit code).

(** Running a script: the lines printed, and the exit status of the
    interpreter ([0] at the end of the module, the code of [SystemExit],
    [1] for an exception nobody caught). *)
Definition exit_status {A} (r : res A) : Z :=
  match r with
  | Ok _ => 0
  | Sig (SystemExit code) => code
  | Sig (Exc _) => 1
  end.

Definition printed (t : list event) : list value :=
  flat_map (fun ev => match ev with EPrint v => [v] | _ => [] end) t.

Record run_result : Type := {
  trace : list event;
  status : Z
}.

Definition stdout (r : run_result) : list value := printed (trace r).

Definition run {A} (script : proc A) : run_result :=
  let '(r, t) := script [] in
  {| trace := t; status := exit_status r |}.

(** A pure computation that may raise. *)
Definition lift {A} (r : ret A) : proc A :=
  match r with
  | Returns a => pure a
  | Raises e => raise (Exc e)
  end.

(** [import lib] *)
Definition import (w : World) (lib : string) : proc unit :=
  call (EImport lib)
       match import_error w lib with
       | None => Returns tt
       | Some e => Raises e
       end.

(** ** diagnose.py *)

Module Diagnose.

Definition diagnose_py (w : World) : proc unit :=
  let dependencies :=
    [("cv2", Bool false); ("mediapipe", Bool false); ("numpy", Bool false)] in
  dependencies <-
    try_except_ImportError
      (import w "cv2" ;;
       pure (assoc_set "cv2" (Bool true) dependencies))
      (fun _ => pure dependencies) ;;
  dependencies <-
    try_except_ImportError
      (import w "mediapipe" ;;
       pure (assoc_set "mediapipe" (Bool true) dependencies))
      (fun _ => pure dependencies) ;;
  dependencies <-
    try_except_ImportError
      (import w "numpy" ;;
       pure (assoc_set "numpy" (Bool true) dependencies))
      (fun _ => pure dependencies) ;;
  let result := Dict [
    ("python_version", Str (sys_version w));
    ("dependencies", Dict dependencies);
    ("all_dependencies_available", Bool (all (values dependencies)))
  ] in
  print_json result.

End Diagnose.

(** ** extract_pose.py *)

Module ExtractPose.

(** The guarded imports at the top of the module; the value is
    [DEPENDENCIES_AVAILABLE]. *)
Definition imports (w : World) : proc bool :=
  try_except_ImportError
    (import w "cv2" ;;
     import w "mediapipe" ;;
     import w "numpy" ;;
     pure true)
    (fun e =>
       let error_message := Dict [
         ("success", Bool false);
         ("error", Str ("Missing Python dependency: " ++ exc_str e
            ++ ". Please install required packages with: pip install opencv-python mediapipe numpy"));
         ("keypoints", List []);
         ("confidence", Float zero)
       ] in
       print_json error_message ;;
       sys_exit 1).

(** [PoseExtractor.__init__] *)
Definition PoseExtractor (w : World) : proc unit :=
  let options := {|
    static_image_mode := true;
    model_complexity := 2;
    enable_segmentation := false;
    min_detection_confidence := S754_finite false 4503599627370496 (-53)
  |} in
  call (EPoseNew options) (Pose_new w options).

Definition landmark_names : list string := [
  "NOSE"; "LEFT_EYE_INNER"; "LEFT_EYE"; "LEFT_EYE_OUTER";
  "RIGHT_EYE_INNER"; "RIGHT_EYE"; "RIGHT_EYE_OUTER";
  "LEFT_EAR"; "RIGHT_EAR"; "MOUTH_LEFT"; "MOUTH_RIGHT";
  "LEFT_SHOULDER"; "RIGHT_SHOULDER"; "LEFT_ELBOW"; "RIGHT_ELBOW";
  "LEFT_WRIST"; "RIGHT_WRIST"; "LEFT_PINKY"; "RIGHT_PINKY";
  "LEFT_INDEX"; "RIGHT_INDEX"; "LEFT_THUMB"; "RIGHT_THUMB";
  "LEFT_HIP"; "RIGHT_HIP"; "LEFT_KNEE"; "RIGHT_KNEE";
  "LEFT_ANKLE"; "RIGHT_ANKLE"; "LEFT_HEEL"; "RIGHT_HEEL";
  "LEFT_FOOT_INDEX"; "RIGHT_FOOT_INDEX"
].

(** [PoseExtractor._get_landmark_name] *)
Definition _get_landmark_name (idx : Z) : ret string :=
  if idx <? len landmark_names then getitem landmark_names idx
  else match str_of_int idx with
       | Returns digits => Returns ("LANDMARK_" ++ digits)
       | Raises e => Raises e
       end.

(** The body of [for idx, landmark in enumerate(...)], from index [idx]
    on, threading [keypoints] and [total_confidence]. *)
Fixpoint for_landmarks (idx : Z) (landmarks : list Landmark.t)
    (keypoints : list value) (total_confidence : float)
  : proc (list value * float) :=
  match landmarks with
  | [] => pure (keypoints, total_confidence)
  | landmark :: rest =>
      name <- lift (_get_landmark_name idx) ;;
      let keypoint := Dict [
        ("id", Int idx);
        ("name", Str name);
        ("x", Float (Landmark.x landmark));
        ("y", Float (Landmark.y landmark));
        ("z", Float (Landmark.z landmark));
        ("visibility", Float (Landmark.visibility landmark))
      ] in
      for_landmarks (idx + 1) rest (keypoints ++ [keypoint])
                    (fadd total_confidence (Landmark.visibility landmark))
  end.

(** [PoseExtractor.extract_keypoints] *)
Definition extract_keypoints (w : World) (image_path : string) : proc value :=
  try_except_Exception
    (exists_ <- call (EIsFile image_path) (is_file w image_path) ;;
     if negb exists_ then
       pure (Dict [
         ("success", Bool false);
         ("error", Str ("Image file not found: " ++ image_path));
         ("keypoints", List []);
         ("confidence", Float zero)
       ])
     else
     image <- call (EImread image_path) (cv2_imread w image_path) ;;
     match image with
     | None =>
       pure (Dict [
         ("success", Bool false);
         ("error", Str ("Could not read image file: " ++ image_path));
         ("keypoints", List []);
         ("confidence", Float zero)
       ])
     | Some image =>
     image_rgb <- call (ECvtColor image) (cv2_cvtColor w image) ;;
     pose_landmarks <- call (EProcess image_rgb) (pose_process w image_rgb) ;;
     match pose_landmarks with
     | None =>
       pure (Dict [
         ("success", Bool false);
         ("error", Str "No pose detected in image");
         ("keypoints", List []);
         ("confidence", Float zero)
       ])
     | Some landmark =>
     acc <- for_landmarks 0 landmark [] zero ;;
     let '(keypoints, total_confidence) := acc in
     let avg_confidence :=
       if truthy (List keypoints)
       then fdiv total_confidence (float_of_int (len keypoints))
       else zero in
     let height := shape_height image in
     let width := shape_width image in
     pure (Dict [
       ("success", Bool true);
       ("keypoints", List keypoints);
       ("keypoints_count", Int (len keypoints));
       ("confidence", Float avg_confidence);
       ("image_dimensions", Dict [("width", Int width); ("height", Int height)]);
       ("pose_detected", Bool true)
     ])
     end end)
    (fun e =>
       let error_traceback := traceback_format_exc w e in
       pure (Dict [
         ("success", Bool false);
         ("error", Str (exc_str e));
         ("traceback", Str error_traceback);
         ("keypoints", List []);
         ("confidence", Float zero)
       ])).

Definition main (w : World) : proc unit :=
  try_except_Exception
    (emit EArgv ;;
     (if len (sys_argv w) <? 2 then
        print_json (Dict [
          ("success", Bool false);
          ("error", Str "No image path provided. Usage: python extract_pose.py <image_path>");
          ("keypoints", List []);
          ("confidence", Float zero)
        ]) ;;
        sys_exit 1
      else pure tt) ;;
     image_path <- lift (getitem (sys_argv w) 1) ;;
     PoseExtractor w ;;
     result <- extract_keypoints w image_path ;;
     print_json result)
    (fun e =>
       print_json (Dict [
         ("success", Bool false);
         ("error", Str ("Unexpected error: " ++ exc_str e));
         ("traceback", Str (traceback_format_exc w e));
         ("keypoints", List []);
         ("confidence", Float zero)
       ]) ;;
       sys_exit 1).

(** The module run as a script: the guarded imports, then [main()]. *)
Definition extract_pose_py (w : World) : proc unit :=
  imports w ;;
  main w.

End ExtractPose.

(** ** Binary64 values and rounding *)

Module Binary64.

(** The literal [1.0]. *)
Definition one : float := S754_finite false 4503599627370496 (-52).

(** A well-formed float [v] with [0.0 <= v <= 1.0], as Python compares
    them. *)
Definition in_unit_interval (v : float) : bool :=
  valid_binary prec emax v && SFleb zero v && SFleb v one.

(** Zero or finite: neither an infinity nor NaN. *)
Definition is_finite (f : float) : bool :=
  match f with
  | S754_zero _ | S754_finite _ _ _ => true
  | _ => false
  end.

(** The rational number a finite float stands for; zero for the rest. *)
Definition to_Q (f : float) : Q :=
  match f with
  | S754_finite s m e =>
      ((if s then - inject_Z (Zpos m) else inject_Z (Zpos m)) * 2 ^ e)%Q
  | _ => 0%Q
  end.


(** The value of a non-negative float in units of [2 ^ -1074], the
    smallest positive binary64 number. *)
Definition ulps (f : float) : Z :=
  match f with
  | S754_finite false m e => Zpos m * 2 ^ (e + 1074)
  | _ => 0
  end.

(** Zero, or a positive finite float whose exponent is in range. *)
Definition nonneg (f : float) : Prop :=
  match f with
  | S754_zero _ => True
  | S754_finite false _ e => -1074 <= e
  | _ => False
  end.

(** The exact sum of the values of a list of floats, in units of
    [2 ^ -1074]. *)
Definition sum_ulps (vs : list float) : Z :=
  fold_right (fun v acc => ulps v + acc) 0 vs.

(** Where the rational [N / D] lies between its floor and the next
    integer. *)
Definition loc_of (N D : Z) : location :=
  if N mod D =? 0 then loc_Exact else loc_Inexact (2 * (N mod D) ?= D).

(** The record [mrs] holds the floor of [N / D] and the position of
    [N / D] above it. *)
Definition located (N D : Z) (mrs : shr_record) : Prop :=
  shr_m mrs = N / D /\ loc_of_shr_record mrs = loc_of N D.

(** A non-negative result of rounding: mantissa [m], exponent [e]. *)
Definition nonneg_float (m e : Z) : float :=
  match m with
  | Z0 => S754_zero false
  | Zpos p => S754_finite false p e
  | Zneg _ => S754_nan
  end.

(** [float_of_int n] is the normalised float of value [n]. *)
Definition float_of_int_check (n : Z) : bool :=
  match float_of_int n with
  | S754_finite false my ey =>
      (-52 <=? ey) && (ey <=? 0) && (Zpos my =? n * 2 ^ (- ey))
      && (Zdigits2 (Zpos my) =? 53)
  | _ => false
  end.

End Binary64.

Import Binary64.

(** ** Outcomes, as the specification names them *)

Module Spec.
Import ExtractPose.

(** The configuration the extractor builds the pose model with: a single
    static image, the most complex model, no segmentation mask, detection
    threshold 0.5. *)
Definition pose_options : PoseOptions := {|
  static_image_mode := true;
  model_complexity := 2;
  enable_segmentation := false;
  min_detection_confidence := S754_finite false 4503599627370496 (-53)
|}.

(** Which of the two [except Exception] guards of the extractor handles an
    exception: the one closing [extract_keypoints], or the one closing
    [main]. *)
Inductive guard : Type := InExtraction | TopLevel.

(** The specification's taxonomy of outcomes of one invocation, and one
    outcome it does not name: [ImportCrash], an import that raises
    something other than [ImportError], which no guard of the script
    catches. *)
Inductive outcome : Type :=
| Success
| MissingArgument
| MissingDependency
| FileNotFound
| UnreadableImage
| NoPoseDetected
| UnexpectedException (g : guard)
| ImportCrash.

(** [lib] loads in world [w]. *)
Definition importable (w : World) (lib : string) : bool :=
  match import_error w lib with
  | None => true
  | Some _ => false
  end.

Definition dependencies_available (w : World) : bool :=
  importable w "cv2" && importable w "mediapipe" && importable w "numpy".

(** What the first of the three imports that fails raises; [None] when
    the three libraries load. *)
Definition import_failure (w : World) : option exception :=
  match import_error w "cv2" with
  | Some e => Some e
  | None =>
      match import_error w "mediapipe" with
      | Some e => Some e
      | None => import_error w "numpy"
      end
  end.

(** Each library of [libs] either loads or raises [ImportError]. *)
Definition only_ImportError (w : World) (libs : list string) : bool :=
  forallb (fun lib => match import_error w lib with
                      | None => true
                      | Some e => is_ImportError e
                      end) libs.

(** The outcome the specification assigns to an invocation, read off the
    world: the conditions are checked in the order in which the process
    meets them. *)
Definition outcome_of (w : World) : outcome :=
  match import_failure w with
  | Some e => if is_ImportError e then MissingDependency else ImportCrash
  | None =>
    match sys_argv w with
    | [] | [_] => MissingArgument
    | _ :: image_path :: _ =>
        match Pose_new w pose_options with
        | Raises _ => UnexpectedException TopLevel
        | Returns _ =>
            match is_file w image_path with
            | Raises _ => UnexpectedException InExtraction
            | Returns false => FileNotFound
            | Returns true =>
                match cv2_imread w image_path with
                | Raises _ => UnexpectedException InExtraction
                | Returns None => UnreadableImage
                | Returns (Some image) =>
                    match cv2_cvtColor w image with
                    | Raises _ => UnexpectedException InExtraction
                    | Returns image_rgb =>
                        match pose_process w image_rgb with
                        | Raises _ => UnexpectedException InExtraction
                        | Returns None => NoPoseDetected
                        | Returns (Some _) => Success
                        end
                    end
                end
            end
        end
    end
  end.

(** The shape every Failure payload has. *)
Definition is_failure (v : value) : Prop :=
  get "success" v = Some (Bool false) /\
  get "keypoints" v = Some (List []) /\
  get "confidence" v = Some (Float zero).

(** The Failure payload for a library that does not load, [msg] being the
    text of the [ImportError]. *)
Definition missing_dependency_payload (msg : string) : value :=
  Dict [
    ("success", Bool false);
    ("error", Str ("Missing Python dependency: " ++ msg
       ++ ". Please install required packages with: pip install opencv-python mediapipe numpy"));
    ("keypoints", List []);
    ("confidence", Float zero)
  ].

(** The error message of a payload contains [needle]. *)
Definition error_contains (needle : string) (v : value) : Prop :=
  exists msg, get "error" v = Some (Str msg) /\ contains needle msg = true.

(** The exit-status rule in the specification's words: the status is
    nonzero exactly for a missing argument, a missing dependency and an
    unexpected exception. *)
Definition nonzero_exit_as_specified (w : World) : Prop :=
  status (run (extract_pose_py w)) <> 0 <->
  (outcome_of w = MissingArgument \/
   outcome_of w = MissingDependency \/
   exists g, outcome_of w = UnexpectedException g).

(** The keypoint the loop builds for the landmark at index [idx]. *)
Definition keypoint_of (idx : Z) (name : string) (landmark : Landmark.t) : value :=
  Dict [
    ("id", Int idx);
    ("name", Str name);
    ("x", Float (Landmark.x landmark));
    ("y", Float (Landmark.y landmark));
    ("z", Float (Landmark.z landmark));
    ("visibility", Float (Landmark.visibility landmark))
  ].

(** The name a non-negative index gets. *)
Definition name_at (idx : Z) : string :=
  if idx <? 33 then nth (Z.to_nat idx) landmark_names ""
  else "LANDMARK_" ++ decimal idx.

(** The keypoints of a landmark list whose first index is [idx]. *)
Fixpoint keypoints_from (idx : Z) (landmarks : list Landmark.t) : list value :=
  match landmarks with
  | [] => []
  | landmark :: rest =>
      keypoint_of idx (name_at idx) landmark :: keypoints_from (idx + 1) rest
  end.

(** [total_confidence] after the loop. *)
Definition total_of (landmarks : list Landmark.t) (start : float) : float :=
  fold_left fadd (map Landmark.visibility landmarks) start.

(** The Success payload for a decoded [image] in which the model found
    [landmarks]. *)
Definition success_payload (image : Image) (landmarks : list Landmark.t) : value :=
  let keypoints := keypoints_from 0 landmarks in
  Dict [
    ("success", Bool true);
    ("keypoints", List keypoints);
    ("keypoints_count", Int (len keypoints));
    ("confidence",
     Float (if truthy (List keypoints)
            then fdiv (total_of landmarks zero) (float_of_int (len keypoints))
            else zero));
    ("image_dimensions",
     Dict [("width", Int (shape_width image)); ("height", Int (shape_height image))]);
    ("pose_detected", Bool true)
  ].



End Spec.

Import Spec ExtractPose.

(** ** Concrete worlds *)

Module Examples.

Definition half : float := S754_finite false 4503599627370496 (-53).

Definition shoulder : Landmark.t :=
  {| Landmark.x := half; Landmark.y := half; Landmark.z := zero;
     Landmark.visibility := half |}.

(** Everything is installed, [photo.png] shows a person. *)
Definition studio : World := {|
  sys_argv := ["extract_pose.py"; "photo.png"];
  sys_version := "3.11.4";
  import_error := fun _ => None;
  traceback_format_exc := fun e => "Traceback (most recent call last): " ++ exc_str e;
  Pose_new := fun _ => Returns tt;
  is_file := fun p => Returns (String.eqb p "photo.png" || String.eqb p "notes.txt");
  cv2_imread := fun p =>
    Returns (if String.eqb p "photo.png"
             then Some {| shape_height := 480; shape_width := 640; pixels := [] |}
             else None);
  cv2_cvtColor := fun image => Returns image;
  pose_process := fun _ => Returns (Some (repeat shoulder 33));
  landmarks_fit := ltac:(intros image_rgb landmarks H; injection H as <-;
                         apply Z.leb_le; reflexivity)
|}.

Definition with_argv (argv : list string) (w : World) : World := {|
  sys_argv := argv;
  sys_version := sys_version w;
  import_error := import_error w;
  traceback_format_exc := traceback_format_exc w;
  Pose_new := Pose_new w;
  is_file := is_file w;
  cv2_imread := cv2_imread w;
  cv2_cvtColor := cv2_cvtColor w;
  pose_process := pose_process w;
  landmarks_fit := landmarks_fit w
|}.

(** The same machine, asked for a file that is not there, for a text
    file, and for nothing. *)
Definition missing_file : World := with_argv ["extract_pose.py"; "gone.png"] studio.
Definition text_file : World := with_argv ["extract_pose.py"; "notes.txt"] studio.
Definition no_argument : World := with_argv ["extract_pose.py"] studio.

(** MediaPipe is not installed. *)
Definition no_mediapipe : World := {|
  sys_argv := sys_argv studio;
  sys_version := sys_version studio;
  import_error := fun lib =>
    if String.eqb lib "mediapipe"
    then Some (ImportError "No module named 'mediapipe'")
    else None;
  traceback_format_exc := traceback_format_exc studio;
  Pose_new := Pose_new studio;
  is_file := is_file studio;
  cv2_imread := cv2_imread studio;
  cv2_cvtColor := cv2_cvtColor studio;
  pose_process := pose_process studio;
  landmarks_fit := landmarks_fit studio
|}.

(** OpenCV rejects the colour conversion of the decoded image. *)
Definition bad_conversion : World := {|
  sys_argv := sys_argv studio;
  sys_version := sys_version studio;
  import_error := import_error studio;
  traceback_format_exc := traceback_format_exc studio;
  Pose_new := Pose_new studio;
  is_file := is_file studio;
  cv2_imread := cv2_imread studio;
  cv2_cvtColor := fun _ =>
    Raises {| is_ImportError := false; exc_str := "OpenCV: Invalid number of channels" |};
  pose_process := pose_process studio;
  landmarks_fit := landmarks_fit studio
|}.

End Examples.

(** ** More worlds, and what the runs are compared with *)

Module Scenes.
Import Examples.

(** The photo shows an empty room: the model finds no pose. *)
Definition empty_room : World := {|
  sys_argv := sys_argv studio;
  sys_version := sys_version studio;
  import_error := import_error studio;
  traceback_format_exc := traceback_format_exc studio;
  Pose_new := Pose_new studio;
  is_file := is_file studio;
  cv2_imread := cv2_imread studio;
  cv2_cvtColor := cv2_cvtColor studio;
  pose_process := fun _ => Returns None;
  landmarks_fit := ltac:(intros image_rgb landmarks H; discriminate H)
|}.

(** The weights of the pose model cannot be fetched. *)
Definition no_weights : World := {|
  sys_argv := sys_argv studio;
  sys_version := sys_version studio;
  import_error := import_error studio;
  traceback_format_exc := traceback_format_exc studio;
  Pose_new := fun _ =>
    Raises {| is_ImportError := false; exc_str := "Failed to download model" |};
  is_file := is_file studio;
  cv2_imread := cv2_imread studio;
  cv2_cvtColor := cv2_cvtColor studio;
  pose_process := pose_process studio;
  landmarks_fit := landmarks_fit studio
|}.

(** OpenCV and NumPy are both missing. *)
Definition bare_python : World := {|
  sys_argv := sys_argv studio;
  sys_version := sys_version studio;
  import_error := fun lib =>
    if String.eqb lib "mediapipe" then None
    else Some (ImportError ("No module named '" ++ lib ++ "'"));
  traceback_format_exc := traceback_format_exc studio;
  Pose_new := Pose_new studio;
  is_file := is_file studio;
  cv2_imread := cv2_imread studio;
  cv2_cvtColor := cv2_cvtColor studio;
  pose_process := pose_process studio;
  landmarks_fit := landmarks_fit studio
|}.

(** MediaPipe is installed next to a protobuf release it cannot work
    with: importing it raises [TypeError]. *)
Definition broken_mediapipe : World := {|
  sys_argv := sys_argv studio;
  sys_version := sys_version studio;
  import_error := fun lib =>
    if String.eqb lib "mediapipe"
    then Some {| is_ImportError := false;
                 exc_str := "Descriptors cannot be created directly." |}
    else None;
  traceback_format_exc := traceback_format_exc studio;
  Pose_new := Pose_new studio;
  is_file := is_file studio;
  cv2_imread := cv2_imread studio;
  cv2_cvtColor := cv2_cvtColor studio;
  pose_process := pose_process studio;
  landmarks_fit := landmarks_fit studio
|}.

(** A name of 300 characters, more than the file system accepts: asked
    about it, [is_file] raises [OSError]. *)
Definition long_path : string := string_of_list_ascii (repeat "a"%char 300).

Definition long_name : World := {|
  sys_argv := ["extract_pose.py"; long_path];
  sys_version := sys_version studio;
  import_error := import_error studio;
  traceback_format_exc := traceback_format_exc studio;
  Pose_new := Pose_new studio;
  is_file := fun p =>
    if (255 <? String.length p)%nat
    then Raises {| is_ImportError := false;
                   exc_str := "[Errno 36] File name too long: '" ++ p ++ "'" |}
    else is_file studio p;
  cv2_imread := cv2_imread studio;
  cv2_cvtColor := cv2_cvtColor studio;
  pose_process := pose_process studio;
  landmarks_fit := landmarks_fit studio
|}.

(** [scan.png] is a regular file that OpenCV refuses to decode: [imread]
    raises [cv2.error]. *)
Definition huge_image : World := {|
  sys_argv := ["extract_pose.py"; "scan.png"];
  sys_version := sys_version studio;
  import_error := import_error studio;
  traceback_format_exc := traceback_format_exc studio;
  Pose_new := Pose_new studio;
  is_file := fun p => Returns (String.eqb p "scan.png");
  cv2_imread := fun _ =>
    Raises {| is_ImportError := false;
              exc_str := "OpenCV: Maximum supported image dimension is 65500 pixels" |};
  cv2_cvtColor := cv2_cvtColor studio;
  pose_process := pose_process studio;
  landmarks_fit := landmarks_fit studio
|}.

(** The machine without the weights, asked for the missing file and for
    the text file; the machine without MediaPipe, asked for nothing, for
    the missing file and for the text file. *)
Definition gone_no_weights : World :=
  with_argv ["extract_pose.py"; "gone.png"] no_weights.
Definition notes_no_weights : World :=
  with_argv ["extract_pose.py"; "notes.txt"] no_weights.
Definition no_argument_no_mediapipe : World :=
  with_argv ["extract_pose.py"] no_mediapipe.
Definition gone_no_mediapipe : World :=
  with_argv ["extract_pose.py"; "gone.png"] no_mediapipe.
Definition notes_no_mediapipe : World :=
  with_argv ["extract_pose.py"; "notes.txt"] no_mediapipe.

(** The import statements of [extract_pose.py] up to and including the
    first library of [libs] that does not load, with the text of its
    [ImportError]; [None] when all of [libs] load, and when what that
    library raises is not an [ImportError]. *)
Fixpoint first_missing (w : World) (libs : list string)
  : option (list string * string) :=
  match libs with
  | [] => None
  | lib :: rest =>
      match import_error w lib with
      | Some e => if is_ImportError e then Some ([lib], exc_str e) else None
      | None =>
          match first_missing w rest with
          | Some (attempts, msg) => Some (lib :: attempts, msg)
          | None => None
          end
      end
  end.

(** The import statements [diagnose.py] gets to among [libs], and whether
    it gets past them: an [ImportError] is swallowed, any other
    exception ends the run. *)
Fixpoint probe (w : World) (libs : list string) : list string * bool :=
  match libs with
  | [] => ([], true)
  | lib :: rest =>
      let '(attempts, through) := probe w rest in
      match import_error w lib with
      | None => (lib :: attempts, through)
      | Some e =>
          if is_ImportError e then (lib :: attempts, through) else ([lib], false)
      end
  end.

(** The report of the dependency prober. *)
Definition dependency_report (w : World) : value :=
  Dict [
    ("python_version", Str (sys_version w));
    ("dependencies", Dict [
       ("cv2", Bool (importable w "cv2"));
       ("mediapipe", Bool (importable w "mediapipe"));
       ("numpy", Bool (importable w "numpy"))
     ]);
    ("all_dependencies_available", Bool (dependencies_available w))
  ].

(** The Failure payload of an exception [e] caught by the guard of
    [extract_keypoints]: the message is [str(e)] as it is. *)
Definition caught_payload (w : World) (e : exception) : value :=
  Dict [
    ("success", Bool false);
    ("error", Str (exc_str e));
    ("traceback", Str (traceback_format_exc w e));
    ("keypoints", List []);
    ("confidence", Float zero)
  ].

(** The Failure payload of an exception [e] caught by the guard of
    [main]. *)
Definition unexpected_payload (w : World) (e : exception) : value :=
  Dict [
    ("success", Bool false);
    ("error", Str ("Unexpected error: " ++ exc_str e));
    ("traceback", Str (traceback_format_exc w e));
    ("keypoints", List []);
    ("confidence", Float zero)
  ].

(** The events of a run that gets as far as asking whether [image_path]
    is a file. *)
Definition prologue (image_path : string) : list event :=
  [EImport "cv2"; EImport "mediapipe"; EImport "numpy"; EArgv;
   EPoseNew pose_options; EIsFile image_path].

End Scenes.

Import Scenes.

(** ** Helper lemmas *)

Lemma len_nonneg {A} (l : list A) : 0 <= len l.
Proof. unfold len. lia. Qed.

Lemma getitem_in_range {A} (l : list A) (i : Z) (d : A) :
  0 <= i < len l -> getitem l i = Returns (nth (Z.to_nat i) l d).
Proof.
  intros [Hlo Hhi]. unfold getitem.
  destruct (Z.ltb_spec i 0) as [Hneg | _]; [lia |].
  destruct (Z.ltb_spec i 0) as [Hneg | _]; [lia |].
  assert (Hlt : (Z.to_nat i < List.length l)%nat) by (unfold len in Hhi; lia).
  destruct (nth_error l (Z.to_nat i)) as [a |] eqn:E.
  - f_equal. symmetry. now apply nth_error_nth.
  - apply nth_error_None in E. lia.
Qed.

Lemma len_landmark_names : len landmark_names = 33.
Proof. reflexivity. Qed.

(** An index a sequence can have is far below the limit of [str]. *)
Lemma sys_maxsize_digits : sys_maxsize < 10 ^ int_max_str_digits.
Proof. vm_compute. reflexivity. Qed.

Lemma str_of_int_small (n : Z) :
  0 <= n < 10 ^ int_max_str_digits -> str_of_int n = Returns (decimal n).
Proof.
  intros Hn. unfold str_of_int.
  destruct (Z.leb_spec (10 ^ int_max_str_digits) (Z.abs n)) as [Hbig | _];
    [| reflexivity].
  rewrite Z.abs_eq in Hbig by apply Hn. exfalso. apply (Z.lt_irrefl n).
  apply Z.lt_le_trans with (2 := Hbig). apply Hn.
Qed.

Lemma get_landmark_name_nonneg (idx : Z) :
  0 <= idx < 10 ^ int_max_str_digits ->
  _get_landmark_name idx = Returns (name_at idx).
Proof.
  intros Hidx. unfold _get_landmark_name, name_at.
  rewrite len_landmark_names.
  destruct (Z.ltb_spec idx 33) as [Hlt | Hge].
  - apply getitem_in_range. rewrite len_landmark_names. split; [apply Hidx | exact Hlt].
  - now rewrite str_of_int_small.
Qed.

Lemma for_landmarks_run (landmarks : list Landmark.t) :
  forall idx keypoints total t,
    0 <= idx ->
    idx + len landmarks <= sys_maxsize ->
    for_landmarks idx landmarks keypoints total t =
      (Ok ((keypoints ++ keypoints_from idx landmarks)%list,
          total_of landmarks total), t).
Proof.
  induction landmarks as [| landmark rest IH];
    intros idx keypoints total t Hidx Hfit.
  - cbn. now rewrite app_nil_r.
  - assert (Hlen : len (landmark :: rest) = 1 + len rest)
      by (unfold len; cbn [List.length]; lia).
    pose proof (len_nonneg rest) as Hrest.
    pose proof sys_maxsize_digits as Hdigits.
    cbn [for_landmarks keypoints_from]. unfold bind at 1.
    rewrite get_landmark_name_nonneg by lia. cbn [lift pure].
    rewrite IH by lia. unfold keypoint_of, total_of. cbn [map fold_left].
    now rewrite <- app_assoc.
Qed.

Lemma length_keypoints_from (landmarks : list Landmark.t) :
  forall idx, List.length (keypoints_from idx landmarks) = List.length landmarks.
Proof.
  induction landmarks as [| landmark rest IH]; intros idx; cbn; [reflexivity |].
  now rewrite IH.
Qed.

Lemma nth_error_keypoints_from (landmarks : list Landmark.t) :
  forall idx i kp,
    nth_error (keypoints_from idx landmarks) i = Some kp ->
    exists landmark,
      nth_error landmarks i = Some landmark /\
      kp = keypoint_of (idx + Z.of_nat i) (name_at (idx + Z.of_nat i)) landmark.
Proof.
  induction landmarks as [| landmark rest IH]; intros idx i kp H.
  - destruct i; discriminate.
  - destruct i as [| i]; cbn in H.
    + injection H as <-. exists landmark. split; [reflexivity |].
      now rewrite Z.add_0_r.
    + destruct (IH _ _ _ H) as (lm & Hlm & ->).
      exists lm. split; [assumption |].
      now replace (idx + 1 + Z.of_nat i) with (idx + Z.of_nat (S i)) by lia.
Qed.

Lemma argv_short_nil {A} : (len (@nil A) <? 2) = true.
Proof. reflexivity. Qed.

Lemma argv_short_one {A} (a : A) : (len [a] <? 2) = true.
Proof. reflexivity. Qed.

Lemma argv_long {A} (a b : A) (l : list A) : (len (a :: b :: l) <? 2) = false.
Proof. apply Z.ltb_ge. unfold len. cbn [List.length]. lia. Qed.

Lemma argv_path {A} (a b : A) (l : list A) : getitem (a :: b :: l) 1 = Returns b.
Proof. reflexivity. Qed.

(** ** Rounding: the shift-and-round core of the float operations

    [SFadd] and [SFdiv] both end in [binary_round_aux], which shifts a
    mantissa right until it fits 53 bits, keeping a round bit and a sticky
    bit, and rounds to nearest even.  The lemmas below follow an exact
    non-negative rational [N / D] through these steps ([located]) and bound
    the distance between the float obtained and [N / D].  All bounds are
    stated on integers: values are counted in units of [2 ^ -1074]. *)

Lemma fexp_eq (e : Z) : fexp prec emax e = Z.max (e - 53) (-1074).
Proof. reflexivity. Qed.

Lemma pow2_pos (a : Z) : 0 <= a -> 0 < 2 ^ a.
Proof. intros. apply Z.pow_pos_nonneg; lia. Qed.

Lemma pow2_le (a b : Z) : 0 <= a <= b -> 2 ^ a <= 2 ^ b.
Proof. intros. apply Z.pow_le_mono_r; lia. Qed.

Lemma pow2_split (a b : Z) : 0 <= a -> 0 <= b -> 2 ^ (a + b) = 2 ^ a * 2 ^ b.
Proof. intros. apply Z.pow_add_r; assumption. Qed.

(** One right shift of a non-negative mantissa halves it; the bit shifted
    out becomes the round bit, the old round bit joins the sticky bit. *)
Lemma shr_1_nonneg (m : Z) (r s : bool) :
  0 <= m ->
  shr_1 {| shr_m := m; shr_r := r; shr_s := s |} =
    {| shr_m := m / 2; shr_r := Z.odd m; shr_s := r || s |}.
Proof.
  intros Hm. rewrite <- Z.div2_div.
  destruct m as [| p | p]; [reflexivity | | lia].
  destruct p; reflexivity.
Qed.

Lemma located_nonneg (N D : Z) (mrs : shr_record) :
  0 <= N -> 0 < D -> located N D mrs -> 0 <= shr_m mrs.
Proof. intros HN HD [-> _]. apply Z.div_pos; lia. Qed.

(** What the round and sticky bits say about the remainder of [N / D]. *)
Lemma loc_bits (N D : Z) (m : Z) (r s : bool) :
  0 <= N mod D < D ->
  loc_of_shr_record {| shr_m := m; shr_r := r; shr_s := s |} = loc_of N D <->
  r = (D <=? 2 * (N mod D)) /\
  s = negb (N mod D =? 0) && negb (2 * (N mod D) =? D).
Proof.
  intros Hrem. unfold loc_of.
  destruct (Z.eqb_spec (N mod D) 0) as [E0 | E0];
    destruct (Z.compare_spec (2 * (N mod D)) D) as [Ec | Ec | Ec];
    destruct (Z.leb_spec D (2 * (N mod D))) as [El | El];
    destruct (Z.eqb_spec (2 * (N mod D)) D) as [Ee | Ee];
    try lia; destruct r, s; cbn; split; intros H;
    try discriminate H; try reflexivity; try (split; reflexivity);
    destruct H; discriminate.
Qed.

(** Shifting by one bit is dividing by [2 * D] instead of [D]. *)
Lemma located_shr_1 (N D : Z) (mrs : shr_record) :
  0 <= N -> 0 < D -> located N D mrs -> located N (D * 2) (shr_1 mrs).
Proof.
  intros HN HD H. pose proof (located_nonneg N D mrs HN HD H) as Hm.
  destruct mrs as [m r s]. destruct H as [Hfloor Hloc]. cbn [shr_m] in *.
  pose proof (Z.mod_pos_bound N D HD) as Hrem.
  apply loc_bits in Hloc; [| assumption]. destruct Hloc as [Hr Hs].
  rewrite shr_1_nonneg by assumption. split; cbn [shr_m].
  - subst m. apply Z.div_div; lia.
  - assert (Hrem2 : N mod (D * 2) = N mod D + D * (m mod 2))
      by (subst m; apply Z.rem_mul_r; lia).
    apply loc_bits; rewrite Hrem2.
    + pose proof (Z.mod_pos_bound m 2 ltac:(lia)). nia.
    + rewrite Zmod_odd in *. subst r s.
      destruct (Z.odd m);
        destruct (Z.eqb_spec (N mod D) 0), (Z.leb_spec D (2 * (N mod D))),
          (Z.eqb_spec (2 * (N mod D)) D); try lia; cbn;
        repeat match goal with
               | |- context [?a <=? ?b] => destruct (Z.leb_spec a b); try lia
               | |- context [?a =? ?b] => destruct (Z.eqb_spec a b); try lia
               end; split; reflexivity.
Qed.

Lemma pow2_xI (p : positive) : 2 ^ Zpos p~1 = 2 * (2 ^ Zpos p * 2 ^ Zpos p).
Proof.
  assert (E : Zpos p~1 = 1 + (Zpos p + Zpos p)) by lia.
  rewrite E, Z.pow_add_r by lia. rewrite Z.pow_add_r by lia. reflexivity.
Qed.

Lemma pow2_xO (p : positive) : 2 ^ Zpos p~0 = 2 ^ Zpos p * 2 ^ Zpos p.
Proof.
  assert (E : Zpos p~0 = Zpos p + Zpos p) by lia.
  now rewrite E, Z.pow_add_r by lia.
Qed.

Lemma located_iter (N : Z) (p : positive) :
  forall D mrs,
    0 <= N -> 0 < D -> located N D mrs ->
    located N (D * 2 ^ Zpos p) (SpecFloat.iter_pos shr_1 p mrs).
Proof.
  induction p as [p IH | p IH |]; intros D mrs HN HD H; cbn [SpecFloat.iter_pos].
  - rewrite pow2_xI.
    replace (D * (2 * (2 ^ Zpos p * 2 ^ Zpos p)))
      with (D * 2 * 2 ^ Zpos p * 2 ^ Zpos p) by ring.
    pose proof (pow2_pos (Zpos p) ltac:(lia)).
    apply IH; [assumption | nia |]. apply IH; [assumption | lia |].
    now apply located_shr_1.
  - rewrite pow2_xO.
    replace (D * (2 ^ Zpos p * 2 ^ Zpos p)) with (D * 2 ^ Zpos p * 2 ^ Zpos p) by ring.
    pose proof (pow2_pos (Zpos p) ltac:(lia)).
    apply IH; [assumption | nia |]. now apply IH.
  - change (2 ^ 1) with 2. now apply located_shr_1.
Qed.

Lemma shr_located (N D : Z) (mrs : shr_record) (e n : Z) :
  0 <= N -> 0 < D -> located N D mrs ->
  exists mrs',
    shr mrs e n = (mrs', e + Z.max n 0) /\
    located N (D * 2 ^ Z.max n 0) mrs'.
Proof.
  intros HN HD H. destruct n as [| p | p]; cbn [shr].
  - exists mrs. rewrite Z.add_0_r. split; [reflexivity |].
    change (2 ^ Z.max 0 0) with 1. now rewrite Z.mul_1_r.
  - exists (SpecFloat.iter_pos shr_1 p mrs). rewrite Z.max_l by lia. split; [reflexivity |].
    now apply located_iter.
  - exists mrs. rewrite Z.max_r by lia. rewrite Z.add_0_r. split; [reflexivity |].
    change (2 ^ 0) with 1. now rewrite Z.mul_1_r.
Qed.

Lemma located_of_loc (N D : Z) :
  located N D (shr_record_of_loc (N / D) (loc_of N D)).
Proof.
  split.
  - destruct (loc_of N D) as [| []]; reflexivity.
  - destruct (loc_of N D) as [| []]; reflexivity.
Qed.

(** Rounding to nearest even moves to the floor or the next integer, at
    most half a unit away from [N / D]. *)
Lemma round_nearest_even_located (N D : Z) (mrs : shr_record) :
  0 <= N -> 0 < D -> located N D mrs ->
  let m1 := round_nearest_even (shr_m mrs) (loc_of_shr_record mrs) in
  N / D <= m1 <= N / D + 1 /\
  - D <= 2 * (m1 * D - N) <= D.
Proof.
  intros HN HD [Hfloor Hloc]. cbn zeta. rewrite Hloc, Hfloor. unfold loc_of.
  pose proof (Z.mod_pos_bound N D HD) as Hrem.
  pose proof (Z.div_mod N D ltac:(lia)) as Hdiv.
  destruct (Z.eqb_spec (N mod D) 0) as [E0 | E0]; cbn [round_nearest_even].
  - split; nia.
  - destruct (Z.compare_spec (2 * (N mod D)) D) as [Ec | Ec | Ec].
    + destruct (Z.even (N / D)); split; nia.
    + split; nia.
    + split; nia.
Qed.

(** [digits2_pos p] is the number of binary digits of [p]. *)
Lemma digits2_pos_bounds (p : positive) :
  2 ^ (Zpos (digits2_pos p) - 1) <= Zpos p < 2 ^ Zpos (digits2_pos p).
Proof.
  induction p as [p IH | p IH |]; cbn [digits2_pos].
  - rewrite Pos2Z.inj_succ. replace (Z.succ (Zpos (digits2_pos p)) - 1)
      with (Z.succ (Zpos (digits2_pos p) - 1)) by lia.
    rewrite !Z.pow_succ_r by lia. lia.
  - rewrite Pos2Z.inj_succ. replace (Z.succ (Zpos (digits2_pos p)) - 1)
      with (Z.succ (Zpos (digits2_pos p) - 1)) by lia.
    rewrite !Z.pow_succ_r by lia. lia.
  - cbn. lia.
Qed.

Lemma Zdigits2_nonneg (m : Z) : 0 <= Zdigits2 m.
Proof. destruct m; cbn; lia. Qed.

Lemma Zdigits2_upper (m : Z) : 0 <= m -> m < 2 ^ Zdigits2 m.
Proof.
  intros Hm. destruct m as [| p | p]; [cbn; lia | | lia].
  apply digits2_pos_bounds.
Qed.

Lemma Zdigits2_lower (m : Z) : 0 < m -> 2 ^ (Zdigits2 m - 1) <= m.
Proof.
  intros Hm. destruct m as [| p | p]; [lia | | lia].
  apply digits2_pos_bounds.
Qed.

Lemma Zdigits2_le (m j : Z) : 0 <= m -> 0 <= j -> m < 2 ^ j -> Zdigits2 m <= j.
Proof.
  intros Hm Hj Hlt. destruct (Z.eq_dec m 0) as [-> | Hne]; [cbn; lia |].
  pose proof (Zdigits2_lower m ltac:(lia)) as Hlow.
  pose proof (Zdigits2_nonneg m).
  destruct (Z_le_gt_dec (Zdigits2 m) j) as [Hle | Hgt]; [assumption | exfalso].
  assert (2 ^ j <= 2 ^ (Zdigits2 m - 1)) by (apply pow2_le; lia).
  lia.
Qed.

(** Rounding a non-negative rational [N / D * 2 ^ ex] that lies below
    [2 ^ (eb + 53)]: the result is a non-negative float, within half a unit
    of exponent [eb]. *)
Lemma binary_round_aux_bound (N D ex eb : Z) :
  0 <= N -> 0 < D -> -1074 <= ex <= eb -> eb <= 970 ->
  N < D * 2 ^ (eb + 53 - ex) ->
  exists mr er,
    binary_round_aux prec emax false (N / D) ex (loc_of N D) = nonneg_float mr er /\
    0 <= mr /\ ex <= er /\
    - (D * 2 ^ (eb - ex)) <= 2 * (mr * 2 ^ (er - ex) * D - N) <= D * 2 ^ (eb - ex).
Proof.
  intros HN HD Hex Heb Hbound.
  set (m := N / D).
  assert (Hm : 0 <= m) by (apply Z.div_pos; lia).
  assert (Hmlt : m < 2 ^ (eb + 53 - ex)).
  { apply Z.div_lt_upper_bound; lia. }
  set (d := Zdigits2 m).
  assert (Hd0 : 0 <= d) by apply Zdigits2_nonneg.
  assert (Hd : d <= eb + 53 - ex) by (apply Zdigits2_le; lia).
  assert (HmD : N < D * 2 ^ d).
  { pose proof (Zdigits2_upper m Hm) as Hup. fold d in Hup.
    pose proof (Z.mod_pos_bound N D HD) as Hrem.
    pose proof (Z.div_mod N D ltac:(lia)) as Hdiv. fold m in Hdiv. nia. }
  unfold binary_round_aux, shr_fexp. fold m. fold d. rewrite fexp_eq.
  set (n1 := Z.max (d + ex - 53) (-1074) - ex).
  destruct (shr_located N D (shr_record_of_loc m (loc_of N D)) ex n1 HN HD
              (located_of_loc N D)) as (mrs1 & -> & Hloc1).
  set (s1 := Z.max n1 0) in *. set (e1 := ex + s1).
  assert (Hs1 : 0 <= s1 <= eb - ex) by (unfold s1, n1; lia).
  assert (Hs1d : d - 53 <= s1) by (unfold s1, n1; lia).
  pose proof (pow2_pos s1 ltac:(lia)) as Hp1.
  set (D1 := D * 2 ^ s1) in *.
  assert (HD1 : 0 < D1) by (unfold D1; nia).
  destruct (round_nearest_even_located N D1 mrs1 HN HD1 Hloc1) as [Hm1 Herr].
  set (m1 := round_nearest_even (shr_m mrs1) (loc_of_shr_record mrs1)) in *.
  assert (Hfloor1 : N / D1 < 2 ^ 53).
  { apply Z.div_lt_upper_bound; [lia |].
    assert (2 ^ d <= 2 ^ (s1 + 53)) by (apply pow2_le; lia).
    rewrite pow2_split in * by lia. unfold D1. nia. }
  assert (Hfloor0 : 0 <= N / D1) by (apply Z.div_pos; lia).
  assert (Hm1' : 0 <= m1 <= 2 ^ 53) by lia.
  (* second shift *)
  rewrite fexp_eq.
  set (n2 := Z.max (Zdigits2 m1 + e1 - 53) (-1074) - e1).
  assert (Hexact : located m1 1 (shr_record_of_loc m1 loc_Exact)).
  { split; cbn [shr_m shr_record_of_loc loc_of_shr_record].
    - now rewrite Z.div_1_r.
    - unfold loc_of. now rewrite Z.mod_1_r. }
  destruct (shr_located m1 1 (shr_record_of_loc m1 loc_Exact) e1 n2
              ltac:(lia) ltac:(lia) Hexact) as (mrs2 & -> & [Hm2 _]).
  rewrite Z.mul_1_l in Hm2.
  assert (Hn2 : (Z.max n2 0 = 0) \/ (Z.max n2 0 = 1 /\ m1 = 2 ^ 53)).
  { destruct (Z.eq_dec m1 (2 ^ 53)) as [E | E].
    - right. split; [| assumption]. unfold n2. rewrite E.
      change (Zdigits2 (2 ^ 53)) with 54. unfold e1. lia.
    - left. assert (Zdigits2 m1 <= 53) by (apply Zdigits2_le; lia).
      unfold n2, e1. lia. }
  exists (shr_m mrs2), (e1 + Z.max n2 0).
  assert (Hval : shr_m mrs2 * 2 ^ (Z.max n2 0) = m1 /\ 0 <= shr_m mrs2).
  { destruct Hn2 as [E | [E Em]]; rewrite Hm2, E.
    - rewrite Z.pow_0_r, Z.div_1_r. lia.
    - rewrite Em. split; [reflexivity | apply Z.div_pos; lia]. }
  destruct Hval as [Hval Hm2pos].
  split.
  - destruct (shr_m mrs2) as [| p | p]; [reflexivity | | lia].
    cbn [nonneg_float].
    destruct (Z.leb_spec (e1 + Z.max n2 0) (emax - prec)) as [_ | Hover];
      [reflexivity |].
    exfalso. unfold emax, prec, e1 in Hover. lia.
  - split; [assumption |]. split; [unfold e1; lia |].
    replace (e1 + Z.max n2 0 - ex) with (Z.max n2 0 + s1) by (unfold e1; lia).
    rewrite pow2_split by lia.
    replace (shr_m mrs2 * (2 ^ Z.max n2 0 * 2 ^ s1) * D) with (m1 * D1)
      by (rewrite <- Hval; unfold D1; ring).
    assert (2 ^ s1 <= 2 ^ (eb - ex)) by (apply pow2_le; lia).
    unfold D1 in Herr |- *. nia.
Qed.

Lemma ulps_nonneg_float (m e : Z) : 0 <= m -> ulps (nonneg_float m e) = m * 2 ^ (e + 1074).
Proof. intros Hm. destruct m as [| p | p]; [reflexivity | reflexivity | lia]. Qed.

Lemma nonneg_nonneg_float (m e : Z) : 0 <= m -> -1074 <= e -> nonneg (nonneg_float m e).
Proof. intros Hm He. destruct m as [| p | p]; cbn; [exact I | assumption | lia]. Qed.

Lemma ulps_nonneg (f : float) : 0 <= ulps f.
Proof.
  destruct f as [s | s | | [] m e]; cbn [ulps]; try lia.
  all: pose proof (Z.pow_nonneg 2 (e + 1074) ltac:(lia)); nia.
Qed.

Lemma pos_iter_xO (m d : positive) : Zpos (Pos.iter xO m d) = Zpos m * 2 ^ Zpos d.
Proof.
  induction d as [| d IH] using Pos.peano_ind.
  - cbn. lia.
  - rewrite Pos.iter_succ, Pos2Z.inj_xO, IH, Pos2Z.inj_succ, Z.pow_succ_r by lia. ring.
Qed.

Lemma shl_align_spec (mx : positive) (ex ex' : Z) :
  snd (shl_align mx ex ex') = Z.min ex ex' /\
  Zpos (fst (shl_align mx ex ex')) = Zpos mx * 2 ^ (ex - Z.min ex ex').
Proof.
  unfold shl_align. destruct (ex' - ex) as [| d | d] eqn:E; cbn [fst snd].
  - rewrite Z.min_l by lia. rewrite Z.sub_diag. cbn. lia.
  - rewrite Z.min_l by lia. rewrite Z.sub_diag. cbn. lia.
  - rewrite Z.min_r by lia. split; [reflexivity |].
    rewrite pos_iter_xO. f_equal. f_equal. lia.
Qed.

Lemma loc_of_1 (N : Z) : loc_of N 1 = loc_Exact.
Proof. unfold loc_of. now rewrite Z.mod_1_r. Qed.

(** Comparing powers of two through a bound on a product. *)
Lemma pow2_lt_inv (a b : Z) : 0 <= a -> 0 <= b -> 2 ^ a < 2 ^ b -> a < b.
Proof. intros Ha Hb H. apply Z.pow_lt_mono_r_iff in H; lia. Qed.

(** Rounding the dyadic number [M * 2 ^ ez], below 64, to binary64: the
    result is within [2 ^ -48] of it. *)
Lemma binary_round_bound (M : positive) (ez : Z) :
  -1074 <= ez ->
  Zpos M * 2 ^ (ez + 1074) < 2 ^ 1080 ->
  nonneg (binary_round prec emax false M ez) /\
  - 2 ^ 1027 <=
    2 * (ulps (binary_round prec emax false M ez) - Zpos M * 2 ^ (ez + 1074))
    <= 2 ^ 1027.
Proof.
  intros Hez Hlt.
  pose proof (pow2_pos (ez + 1074) ltac:(lia)) as Hpz.
  assert (Hez6 : ez < 6).
  { assert (2 ^ (ez + 1074) < 2 ^ 1080) by nia.
    apply pow2_lt_inv in H; lia. }
  assert (HM : Zpos M < 2 ^ (6 - ez)).
  { apply Z.mul_lt_mono_pos_r with (p := 2 ^ (ez + 1074)); [assumption |].
    rewrite <- pow2_split by lia.
    replace (6 - ez + (ez + 1074)) with 1080 by lia. assumption. }
  assert (Hdig : Zdigits2 (Zpos M) <= 6 - ez) by (apply Zdigits2_le; lia).
  unfold binary_round.
  change (Zpos (digits2_pos M)) with (Zdigits2 (Zpos M)). rewrite fexp_eq.
  set (target := Z.max (Zdigits2 (Zpos M) + ez - 53) (-1074)).
  destruct (shl_align_spec M ez target) as [Hsnd Hfst].
  destruct (shl_align M ez target) as [mz ez2]. cbn [fst snd] in Hsnd, Hfst.
  assert (Hez2 : -1074 <= ez2 <= -47) by (unfold target in *; lia).
  assert (Hshift : 0 <= ez - ez2) by lia.
  rewrite <- Hsnd in Hfst.
  destruct (binary_round_aux_bound (Zpos mz) 1 ez2 (-47)) as (mr & er & Hr & Hmr & Her & Herr);
    try lia.
  { rewrite Hfst, Z.mul_1_l.
    replace (-47 + 53 - ez2) with (6 - ez + (ez - ez2)) by lia.
    rewrite pow2_split by lia.
    pose proof (pow2_pos (ez - ez2) Hshift). nia. }
  rewrite Z.div_1_r, loc_of_1 in Hr. rewrite Hr.
  split; [apply nonneg_nonneg_float; lia |].
  rewrite ulps_nonneg_float by assumption.
  replace (er + 1074) with (er - ez2 + (ez2 + 1074)) by lia.
  replace (ez + 1074) with (ez - ez2 + (ez2 + 1074)) by lia.
  rewrite (pow2_split (er - ez2) (ez2 + 1074)) by lia.
  rewrite (pow2_split (ez - ez2) (ez2 + 1074)) by lia.
  rewrite !Z.mul_1_r in Herr. rewrite Hfst in Herr.
  pose proof (pow2_pos (ez2 + 1074) ltac:(lia)) as Hp2.
  assert (Hscale : 2 ^ (-47 - ez2) * 2 ^ (ez2 + 1074) = 2 ^ 1027).
  { rewrite <- pow2_split by lia. f_equal. lia. }
  set (P := 2 ^ (ez2 + 1074)) in *.
  set (E := 2 ^ (-47 - ez2)) in *.
  set (X := mr * 2 ^ (er - ez2)) in *.
  set (Y := Zpos M * 2 ^ (ez - ez2)) in *.
  rewrite <- Hscale.
  replace (mr * (2 ^ (er - ez2) * P)) with (X * P) by (unfold X; ring).
  replace (Zpos M * (2 ^ (ez - ez2) * P)) with (Y * P) by (unfold Y; ring).
  rewrite !Z.mul_1_l in Herr. fold E X Y in Herr. destruct Herr as [Hlo Hhi].
  replace (- (E * P)) with (- E * P) by ring.
  replace (2 * (X * P - Y * P)) with (2 * (X - Y) * P) by ring.
  split; apply Z.mul_le_mono_nonneg_r; lia.
Qed.

(** Float addition of two non-negative floats whose sum is below 64 is
    within [2 ^ -48] of the exact sum. *)
Lemma fadd_bound (a b : float) :
  nonneg a -> nonneg b -> ulps a + ulps b < 2 ^ 1080 ->
  nonneg (fadd a b) /\
  - 2 ^ 1027 <= 2 * (ulps (fadd a b) - (ulps a + ulps b)) <= 2 ^ 1027.
Proof.
  intros Ha Hb Hsum.
  pose proof (pow2_pos 1027 ltac:(lia)) as Hp.
  destruct a as [sa | sa | | [] ma ea]; try contradiction;
    destruct b as [sb | sb | | [] mb eb]; try contradiction.
  - destruct sa, sb; cbv [fadd SFadd ulps nonneg]; split; (exact I || lia).
  - cbv [fadd SFadd]. split; [assumption | cbn [ulps]; lia].
  - cbv [fadd SFadd]. split; [assumption | cbn [ulps]; lia].
  - cbn [nonneg ulps] in *. unfold fadd, SFadd. cbv [cond_Zopp].
    set (ez := Z.min ea eb).
    destruct (shl_align_spec ma ea ez) as [_ Hma].
    destruct (shl_align_spec mb eb ez) as [_ Hmb].
    rewrite Z.min_r in Hma, Hmb by (unfold ez; lia).
    set (ma' := fst (shl_align ma ea ez)) in *.
    set (mb' := fst (shl_align mb eb ez)) in *.
    change (Zpos ma' + Zpos mb') with (Zpos (ma' + mb')).
    cbv beta iota delta [binary_normalize].
    assert (Hval : Zpos (ma' + mb') * 2 ^ (ez + 1074)
                   = Zpos ma * 2 ^ (ea + 1074) + Zpos mb * 2 ^ (eb + 1074)).
    { rewrite Pos2Z.inj_add, Hma, Hmb.
      replace (ea + 1074) with (ea - ez + (ez + 1074)) by lia.
      replace (eb + 1074) with (eb - ez + (ez + 1074)) by lia.
      rewrite (pow2_split (ea - ez)), (pow2_split (eb - ez)) by (unfold ez; lia).
      ring. }
    rewrite <- Hval in *.
    apply binary_round_bound; [unfold ez; lia | assumption].
Qed.

Lemma div_eucl_pair (a b : Z) : Z.div_eucl a b = (a / b, a mod b).
Proof. unfold Z.div, Z.modulo. now destruct (Z.div_eucl a b). Qed.

Lemma new_location_loc_of (N D : Z) :
  0 < D -> new_location D (N mod D) = loc_of N D.
Proof.
  intros HD. pose proof (Z.mod_pos_bound N D HD) as Hrem.
  unfold new_location, new_location_even, new_location_odd, loc_of.
  destruct (Z.even D) eqn:Heven; destruct (Z.eqb_spec (N mod D) 0) as [E | E];
    try reflexivity.
  f_equal.
  assert (Hodd : 2 * (N mod D) <> D).
  { intros Heq. rewrite <- Heq, Z.even_mul in Heven. discriminate. }
  destruct (Z.compare_spec (2 * (N mod D) + 1) D);
    destruct (Z.compare_spec (2 * (N mod D)) D); try reflexivity; lia.
Qed.

(** The quotient digits and the position [SFdiv] hands to the rounding
    step are those of the exact quotient. *)
Lemma SFdiv_core_binary_spec (mx my : positive) (ex ey : Z) :
  let e' := Z.min (fexp prec emax (Zdigits2 (Zpos mx) + ex - (Zdigits2 (Zpos my) + ey)))
                  (ex - ey) in
  let N := Zpos mx * 2 ^ (ex - ey - e') in
  SFdiv_core_binary prec emax (Zpos mx) ex (Zpos my) ey =
    (N / Zpos my, e', loc_of N (Zpos my)).
Proof.
  intros e' N. unfold SFdiv_core_binary. fold e'.
  assert (Hs : 0 <= ex - ey - e') by (unfold e'; lia).
  assert (Hm : match ex - ey - e' with
               | Z0 => Zpos mx
               | Zpos _ => Z.shiftl (Zpos mx) (ex - ey - e')
               | Zneg _ => 0
               end = N).
  { unfold N. destruct (ex - ey - e') as [| s | s] eqn:E.
    - rewrite Z.pow_0_r. lia.
    - apply Z.shiftl_mul_pow2. lia.
    - lia. }
  rewrite Hm, div_eucl_pair. now rewrite new_location_loc_of by lia.
Qed.

(** The floats of the integers 1 to 63, by enumeration. *)
Lemma float_of_int_small (n : Z) :
  1 <= n <= 63 ->
  exists my ey,
    float_of_int n = S754_finite false my ey /\
    -52 <= ey <= 0 /\
    Zpos my = n * 2 ^ (- ey) /\
    Zdigits2 (Zpos my) = 53.
Proof.
  intros Hn.
  assert (Hall : forallb float_of_int_check (map Z.of_nat (seq 1 63)) = true)
    by (vm_compute; reflexivity).
  rewrite forallb_forall in Hall.
  assert (Hin : In n (map Z.of_nat (seq 1 63))).
  { apply in_map_iff. exists (Z.to_nat n). split; [lia |]. apply in_seq. lia. }
  specialize (Hall n Hin). unfold float_of_int_check in Hall.
  destruct (float_of_int n) as [| | | [] my ey]; try discriminate.
  exists my, ey. split; [reflexivity |].
  apply andb_prop in Hall. destruct Hall as [Hall Hdig].
  apply andb_prop in Hall. destruct Hall as [Hall Hmy].
  apply andb_prop in Hall. destruct Hall as [Hlo Hhi].
  apply Z.leb_le in Hlo, Hhi. apply Z.eqb_eq in Hmy, Hdig. auto.
Qed.

(** Float division of a non-negative float below [64 * n] by the small
    integer [n] is within [2 ^ -48] of the exact quotient. *)
Lemma fdiv_bound (t : float) (n : Z) :
  nonneg t -> 1 <= n <= 63 -> ulps t < n * 2 ^ 1080 ->
  nonneg (fdiv t (float_of_int n)) /\
  - (n * 2 ^ 1027) <= 2 * (n * ulps (fdiv t (float_of_int n)) - ulps t)
    <= n * 2 ^ 1027.
Proof.
  intros Ht Hn Hlt.
  pose proof (pow2_pos 1027 ltac:(lia)) as Hp.
  destruct (float_of_int_small n Hn) as (my & ey & -> & Hey & Hmy & Hdmy).
  destruct t as [st | st | | [] mx ex]; try contradiction.
  - cbv [fdiv SFdiv nonneg ulps]. split; [exact I | nia].
  - cbn [nonneg ulps] in *. unfold fdiv, SFdiv.
    pose proof (SFdiv_core_binary_spec mx my ex ey) as Hcore. cbv zeta in Hcore.
    rewrite Hcore. clear Hcore. cbn [xorb]. rewrite Hdmy, fexp_eq.
    set (d1 := Zdigits2 (Zpos mx)).
    set (e' := Z.min (Z.max (d1 + ex - (53 + ey) - 53) (-1074)) (ex - ey)).
    set (N := Zpos mx * 2 ^ (ex - ey - e')).
    set (P := 2 ^ (- ey)) in *.
    assert (HP : 0 < P) by (apply pow2_pos; lia).
    assert (Hmy53 : Zpos my < 2 ^ 53).
    { pose proof (Zdigits2_upper (Zpos my) ltac:(lia)) as H. now rewrite Hdmy in H. }
    (* the exponent of the quotient *)
    assert (Hd1 : d1 + ex - ey <= 59).
    { pose proof (Zdigits2_lower (Zpos mx) ltac:(lia)) as Hlow. fold d1 in Hlow.
      assert (Hd1pos : 1 <= d1) by (unfold d1; cbn; lia).
      assert (H1 : 2 ^ (d1 - 1) * 2 ^ (ex + 1074) * P < 2 ^ 53 * 2 ^ 1080).
      { pose proof (pow2_pos (ex + 1074) ltac:(lia)) as Hq.
        pose proof (pow2_pos 1080 ltac:(lia)) as Hq'.
        apply Z.le_lt_trans with (Zpos mx * 2 ^ (ex + 1074) * P).
        - apply Z.mul_le_mono_nonneg_r; [lia |].
          apply Z.mul_le_mono_nonneg_r; lia.
        - apply Z.lt_le_trans with (n * 2 ^ 1080 * P).
          + apply Z.mul_lt_mono_pos_r; assumption.
          + replace (n * 2 ^ 1080 * P) with (n * P * 2 ^ 1080) by ring.
            rewrite <- Hmy. apply Z.mul_le_mono_nonneg_r; lia. }
      unfold P in H1. rewrite <- !pow2_split in H1 by lia.
      apply pow2_lt_inv in H1; lia. }
    assert (He' : -1074 <= e' <= -47) by (unfold e'; lia).
    assert (Hs : 0 <= ex - ey - e') by (unfold e'; lia).
    assert (HN : 0 <= N).
    { unfold N. pose proof (pow2_pos (ex - ey - e') Hs). lia. }
    assert (HND : N < Zpos my * 2 ^ (-47 + 53 - e')).
    { pose proof (pow2_pos (e' + 1074) ltac:(lia)) as HQ.
      apply Z.mul_lt_mono_pos_r with (p := 2 ^ (e' + 1074)); [assumption |].
      unfold N. rewrite <- !Z.mul_assoc, <- !pow2_split by lia.
      replace (ex - ey - e' + (e' + 1074)) with (ex + 1074 + - ey) by lia.
      replace (-47 + 53 - e' + (e' + 1074)) with 1080 by lia.
      rewrite pow2_split by lia. fold P. rewrite Hmy.
      replace (n * P * 2 ^ 1080) with (n * 2 ^ 1080 * P) by ring.
      rewrite Z.mul_assoc. apply Z.mul_lt_mono_pos_r; assumption. }
    destruct (binary_round_aux_bound N (Zpos my) e' (-47) HN ltac:(lia) He' ltac:(lia) HND)
      as (mr & er & -> & Hmr & Her & Herr).
    split; [apply nonneg_nonneg_float; lia |].
    rewrite ulps_nonneg_float by assumption.
    (* scale the error bound by 2 ^ (e' + 1074) and cancel P *)
    set (Q := 2 ^ (e' + 1074)).
    assert (HQ : 0 < Q) by (apply pow2_pos; lia).
    assert (E1 : Zpos my * 2 ^ (-47 - e') * Q = n * 2 ^ 1027 * P).
    { unfold Q. rewrite <- Z.mul_assoc, <- pow2_split by lia.
      replace (-47 - e' + (e' + 1074)) with 1027 by lia. rewrite Hmy. ring. }
    assert (E2 : mr * 2 ^ (er - e') * Zpos my * Q = n * (mr * 2 ^ (er + 1074)) * P).
    { unfold Q. replace (er + 1074) with (er - e' + (e' + 1074)) by lia.
      rewrite (pow2_split (er - e')) by lia. rewrite Hmy. ring. }
    assert (E3 : N * Q = Zpos mx * 2 ^ (ex + 1074) * P).
    { unfold Q, N, P. rewrite <- !Z.mul_assoc, <- !pow2_split by lia.
      f_equal. f_equal. lia. }
    set (R := mr * 2 ^ (er + 1074)) in *.
    set (T := Zpos mx * 2 ^ (ex + 1074)) in *.
    set (B := Zpos my * 2 ^ (-47 - e')) in *.
    set (A := mr * 2 ^ (er - e') * Zpos my) in *.
    destruct Herr as [Hlo Hhi].
    assert (Hlo' : - B * Q <= 2 * (A - N) * Q) by (apply Z.mul_le_mono_nonneg_r; lia).
    assert (Hhi' : 2 * (A - N) * Q <= B * Q) by (apply Z.mul_le_mono_nonneg_r; lia).
    assert (Hlo'' : - (n * 2 ^ 1027) * P <= 2 * (n * R - T) * P) by lia.
    assert (Hhi'' : 2 * (n * R - T) * P <= n * 2 ^ 1027 * P) by lia.
    split.
    + apply Z.mul_le_mono_pos_r with (p := P); assumption.
    + apply Z.mul_le_mono_pos_r with (p := P); assumption.
Qed.

(** A float Python places in [0.0, 1.0] has a value in [0, 1]. *)
Lemma in_unit_interval_bound (v : float) :
  in_unit_interval v = true -> nonneg v /\ ulps v <= 2 ^ 1074.
Proof.
  unfold in_unit_interval. intros H.
  apply andb_prop in H. destruct H as [H Hle1].
  apply andb_prop in H. destruct H as [Hvalid Hge0].
  destruct v as [s | s | | s m e].
  - cbn [nonneg ulps]. split; [exact I | ]. pose proof (pow2_pos 1074 ltac:(lia)). lia.
  - destruct s; discriminate.
  - discriminate.
  - destruct s; [discriminate |].
    unfold valid_binary, bounded, canonical_mantissa in Hvalid.
    apply andb_prop in Hvalid. destruct Hvalid as [Hcanon _].
    apply Z.eqb_eq in Hcanon. rewrite fexp_eq in Hcanon.
    change (Zpos (digits2_pos m)) with (Zdigits2 (Zpos m)) in Hcanon.
    pose proof (Zdigits2_upper (Zpos m) ltac:(lia)) as Hup.
    assert (Hd : Zdigits2 (Zpos m) <= 53) by lia.
    assert (He : -1074 <= e) by lia.
    assert (Hm53 : Zpos m < 2 ^ 53).
    { apply Z.lt_le_trans with (2 ^ Zdigits2 (Zpos m)); [assumption |].
      apply pow2_le. pose proof (Zdigits2_nonneg (Zpos m)). lia. }
    cbn [nonneg ulps]. split; [assumption |].
    unfold SFleb, SFcompare, one in Hle1.
    pose proof (pow2_pos (e + 1074) ltac:(lia)) as Hpe.
    destruct (Z.compare_spec e (-52)) as [Eeq | Elt | Egt].
    + subst e.
      assert (Hm52 : Zpos m <= 2 ^ 52).
      { destruct (Pos.compare_cont Eq m 4503599627370496) eqn:Hc;
          [| | discriminate Hle1].
        - apply Pos.compare_eq_iff in Hc. rewrite Hc. reflexivity.
        - apply Pos.compare_lt_iff in Hc. apply Pos2Z.pos_lt_pos in Hc.
          apply Z.lt_le_incl. exact Hc. }
      replace (2 ^ 1074) with (2 ^ 52 * 2 ^ (-52 + 1074))
        by (rewrite <- pow2_split by lia; reflexivity).
      apply Z.mul_le_mono_nonneg_r; lia.
    + replace (2 ^ 1074) with (2 ^ (53 + (-53 - e)) * 2 ^ (e + 1074))
        by (rewrite <- pow2_split by lia; f_equal; lia).
      apply Z.mul_le_mono_nonneg_r; [lia |].
      apply Z.le_trans with (2 ^ 53); [lia |]. apply pow2_le. lia.
    + discriminate.
Qed.

Lemma sum_ulps_nonneg (vs : list float) : 0 <= sum_ulps vs.
Proof.
  induction vs as [| v rest IH]; cbn [sum_ulps fold_right]; [lia |].
  fold (sum_ulps rest). pose proof (ulps_nonneg v). lia.
Qed.


Section QBridge.
Local Open Scope Q_scope.

Lemma to_Q_ulps (f : float) :
  nonneg f -> to_Q f == inject_Z (ulps f) * 2 ^ (-1074).
Proof.
  destruct f as [s | s | | [] m e]; cbn [nonneg to_Q ulps]; intros H;
    try contradiction.
  - now rewrite Qmult_0_l.
  - rewrite inject_Z_mult, Zpower_Qpower by lia.
    change (inject_Z 2) with 2.
    rewrite <- Qmult_assoc, <- Qpower_plus by discriminate.
    now replace (e + 1074 + -1074)%Z with e by lia.
Qed.



End QBridge.

Lemma nonneg_is_finite (f : float) : nonneg f -> is_finite f = true.
Proof. destruct f as [s | s | | [] m e]; cbn; intros H; (reflexivity || contradiction). Qed.


(** ** Symbolic execution of the extractor

    [run_cases] unfolds the script and splits on every answer of the world
    the run asks for, in the order in which the run asks. *)

Ltac world_case :=
  match goal with
  | |- context [is_ImportError ?e] =>
      let E := fresh "Hclass" in destruct (is_ImportError e) eqn:E
  | |- context [import_error ?w ?lib] =>
      let E := fresh "Himport" in destruct (import_error w lib) eqn:E
  | |- context [sys_argv ?w] =>
      let E := fresh "Hargv" in
      destruct (sys_argv w) as [| ? [| ? ?]] eqn:E;
      rewrite ?argv_short_nil, ?argv_short_one, ?argv_long, ?argv_path
  | |- context [Pose_new ?w ?o] =>
      let E := fresh "Hpose" in destruct (Pose_new w o) as [[] | ?] eqn:E
  | |- context [is_file ?w ?p] =>
      let E := fresh "Hfile" in destruct (is_file w p) as [[|] | ?] eqn:E
  | |- context [cv2_imread ?w ?p] =>
      let E := fresh "Hread" in destruct (cv2_imread w p) as [[?|] | ?] eqn:E
  | |- context [cv2_cvtColor ?w ?p] =>
      let E := fresh "Hcvt" in destruct (cv2_cvtColor w p) as [? | ?] eqn:E
  | |- context [pose_process ?w ?p] =>
      let E := fresh "Hproc" in destruct (pose_process w p) as [[?|] | ?] eqn:E
  | H : pose_process ?w _ = Returns (Some ?l)
    |- context [for_landmarks ?i ?l ?k ?c ?t] =>
      rewrite (for_landmarks_run l i k c t)
        by (try pose proof (landmarks_fit w _ _ H); lia)
  end.

Ltac run_script :=
  unfold run, stdout, extract_pose_py, imports, main, PoseExtractor,
    extract_keypoints, import, try_except_ImportError, try_except_Exception,
    print_json, sys_exit, call, lift, bind, emit, raise, pure.

Ltac simpl_run :=
  cbn -[len getitem for_landmarks fdiv float_of_int fadd total_of keypoints_from].

Ltac run_cases := run_script; repeat (world_case; simpl_run).

Ltac unfold_outcome :=
  unfold outcome_of, import_failure, dependencies_available, importable,
    pose_options in *.

(** ** The landmark-name lookup *)

(** The claim C10 as the specification words it, for every non-negative
    index, fails at [10 ^ 4300], the smallest index of 4301 digits: it is
    not below 33, so the name is formed from its digits, and formatting
    it raises [ValueError]. *)
Lemma get_landmark_name_limit_counterexample :
  0 <= 10 ^ 4300 /\
  33 <= 10 ^ 4300 /\
  _get_landmark_name (10 ^ 4300) =
    Raises (ValueError "Exceeds the limit (4300 digits) for integer string conversion; use sys.set_int_max_str_digits() to increase the limit") /\
  ~ (exists name, _get_landmark_name (10 ^ 4300) = Returns name).
Proof.
  assert (Hraises : _get_landmark_name (10 ^ 4300) =
            Raises (ValueError "Exceeds the limit (4300 digits) for integer string conversion; use sys.set_int_max_str_digits() to increase the limit"))
    by (vm_compute; reflexivity).
  split; [apply Z.leb_le; vm_compute; reflexivity |].
  split; [apply Z.leb_le; vm_compute; reflexivity |].
  split; [exact Hraises |].
  intros [name H]. rewrite Hraises in H. discriminate H.
Qed.

(** C10, amended. The landmark-name lookup is total on the non-negative
    indices of at most 4300 digits, that is below [10 ^ 4300]:
    [_get_landmark_name] returns without raising, the entry of the
    canonical table when the index is below 33, and the string formed as
    ["LANDMARK_<idx>"] for an index of 33 or more. *)
Theorem get_landmark_name_total (idx : Z) :
  0 <= idx < 10 ^ int_max_str_digits ->
  (idx < 33 ->
     exists name,
       nth_error landmark_names (Z.to_nat idx) = Some name /\
       _get_landmark_name idx = Returns name) /\
  (33 <= idx ->
     _get_landmark_name idx = Returns ("LANDMARK_" ++ decimal idx)).
Proof.
  intros Hidx.
  rewrite (get_landmark_name_nonneg idx Hidx). unfold name_at.
  split; intros Hcmp.
  - destruct (Z.ltb_spec idx 33) as [_ | Hge]; [| lia].
    exists (nth (Z.to_nat idx) landmark_names ""). split; [| reflexivity].
    apply nth_error_nth'. change (List.length landmark_names) with 33%nat. lia.
  - destruct (Z.ltb_spec idx 33) as [Hlt | _]; [lia | reflexivity].
Qed.

Lemma get_landmark_name_total_witness :
  0 <= 7 < 10 ^ int_max_str_digits /\
  (exists name,
     nth_error landmark_names (Z.to_nat 7) = Some name /\
     _get_landmark_name 7 = Returns name) /\
  0 <= 40 < 10 ^ int_max_str_digits /\
  _get_landmark_name 40 = Returns "LANDMARK_40".
Proof.
  assert (H7 : 0 <= 7 < 10 ^ int_max_str_digits)
    by (split; [lia | vm_compute; reflexivity]).
  assert (H40 : 0 <= 40 < 10 ^ int_max_str_digits)
    by (split; [lia | vm_compute; reflexivity]).
  split; [exact H7 |]. split.
  - apply (get_landmark_name_total 7 H7). lia.
  - split; [exact H40 |]. apply (get_landmark_name_total 40 H40). lia.
Defined.

(** Outside the claim's range the lookup follows Python's indexing: the
    last 33 negative indices read the table from its end, anything below
    raises. *)
Example get_landmark_name_negative :
  _get_landmark_name (-1) = Returns "RIGHT_FOOT_INDEX" /\
  _get_landmark_name (-34) = Raises (IndexError "list index out of range").
Proof. split; reflexivity. Qed.

(** ** The dependency prober *)

(** The claim C8 as the specification words it, for every environment,
    fails where a library is installed but breaks while it is imported:
    [diagnose.py] catches [ImportError] only, so the [TypeError] of
    [import mediapipe] ends the run with status 1 before anything is
    printed. *)
Lemma diagnose_import_crash_counterexample :
  import_error Scenes.broken_mediapipe "mediapipe" =
    Some {| is_ImportError := false;
            exc_str := "Descriptors cannot be created directly." |} /\
  run (Diagnose.diagnose_py Scenes.broken_mediapipe) = {|
    trace := [EImport "cv2"; EImport "mediapipe"];
    status := 1
  |} /\
  status (run (Diagnose.diagnose_py Scenes.broken_mediapipe)) <> 0 /\
  stdout (run (Diagnose.diagnose_py Scenes.broken_mediapipe)) = [].
Proof.
  split; [reflexivity |]. split; [reflexivity |].
  split; [discriminate | reflexivity].
Qed.

(** C8, amended. In every environment in which each of the three
    libraries either imports or raises [ImportError], the diagnose tool
    exits with status 0 and prints exactly one JSON object with the keys
    [python_version], [dependencies] (a boolean for each of [cv2],
    [mediapipe], [numpy], each depending only on whether that library
    imports) and [all_dependencies_available], which is true iff the three
    booleans are. *)
Theorem diagnose_reports_every_dependency (w : World) :
  only_ImportError w ["cv2"; "mediapipe"; "numpy"] = true ->
  status (run (Diagnose.diagnose_py w)) = 0 /\
  stdout (run (Diagnose.diagnose_py w)) = [
    Dict [
      ("python_version", Str (sys_version w));
      ("dependencies", Dict [
         ("cv2", Bool (importable w "cv2"));
         ("mediapipe", Bool (importable w "mediapipe"));
         ("numpy", Bool (importable w "numpy"))
       ]);
      ("all_dependencies_available",
       Bool (importable w "cv2" && importable w "mediapipe" && importable w "numpy"))
    ]
  ].
Proof.
  unfold only_ImportError, Diagnose.diagnose_py, importable.
  cbn [forallb]. run_script.
  destruct (import_error w "cv2") as [e1 |],
    (import_error w "mediapipe") as [e2 |],
    (import_error w "numpy") as [e3 |]; intros Hclass.
  all: repeat match type of Hclass with
              | context [is_ImportError ?e] => destruct (is_ImportError e)
              end.
  all: first [discriminate Hclass | cbn; split; reflexivity].
Qed.

Lemma diagnose_reports_every_dependency_witness :
  only_ImportError Scenes.bare_python ["cv2"; "mediapipe"; "numpy"] = true /\
  status (run (Diagnose.diagnose_py Scenes.bare_python)) = 0 /\
  stdout (run (Diagnose.diagnose_py Scenes.bare_python)) = [
    Dict [
      ("python_version", Str "3.11.4");
      ("dependencies", Dict [
         ("cv2", Bool false);
         ("mediapipe", Bool true);
         ("numpy", Bool false)
       ]);
      ("all_dependencies_available", Bool false)
    ]
  ].
Proof.
  split; [reflexivity |].
  exact (diagnose_reports_every_dependency Scenes.bare_python eq_refl).
Defined.

(** ** The pose extractor: failures *)

Lemma contains_app_r (needle prefix suffix : string) :
  contains needle suffix = true -> contains needle (prefix ++ suffix) = true.
Proof.
  intros H. induction prefix as [| c prefix IH]; [exact H |].
  cbn [append contains]. rewrite IH. apply orb_true_r.
Qed.

Lemma missing_dependency_payload_hint (msg : string) :
  is_failure (missing_dependency_payload msg) /\
  error_contains "Missing Python dependency" (missing_dependency_payload msg) /\
  error_contains "pip install opencv-python mediapipe numpy"
                 (missing_dependency_payload msg).
Proof.
  split; [repeat split |]. split.
  - eexists. split; reflexivity.
  - eexists. split; [reflexivity |].
    apply (contains_app_r _ "Missing Python dependency: ").
    apply contains_app_r. reflexivity.
Qed.

(** The claim C7 as the specification words it, for a library that fails
    to load in whatever way, fails where the failure is not an
    [ImportError]: the guard at the top of [extract_pose.py] does not
    catch the [TypeError] of [import mediapipe], and the process ends with
    status 1 without having printed any JSON. *)
Lemma missing_dependency_crash_counterexample :
  importable Scenes.broken_mediapipe "mediapipe" = false /\
  dependencies_available Scenes.broken_mediapipe = false /\
  run (extract_pose_py Scenes.broken_mediapipe) = {|
    trace := [EImport "cv2"; EImport "mediapipe"];
    status := 1
  |} /\
  stdout (run (extract_pose_py Scenes.broken_mediapipe)) = [].
Proof. repeat split. Qed.

(** C7, amended. If the first of the three libraries that fails to load
    (in the order cv2, mediapipe, numpy) raises [ImportError], the
    extractor prints one Failure payload that names the missing dependency
    and gives the install hint, and exits with status 1; up to then it has
    done nothing but try the imports: no argument was read and no image
    was touched. *)
Theorem missing_dependency_exits_1 (w : World) (e : exception) :
  import_failure w = Some e ->
  is_ImportError e = true ->
  exists lib attempts,
    In lib ["cv2"; "mediapipe"; "numpy"] /\
    import_error w lib = Some e /\
    status (run (extract_pose_py w)) = 1 /\
    stdout (run (extract_pose_py w)) = [missing_dependency_payload (exc_str e)] /\
    trace (run (extract_pose_py w)) =
      (map EImport attempts
       ++ [EPrint (missing_dependency_payload (exc_str e))])%list /\
    is_failure (missing_dependency_payload (exc_str e)) /\
    error_contains "Missing Python dependency"
                   (missing_dependency_payload (exc_str e)) /\
    error_contains "pip install opencv-python mediapipe numpy"
                   (missing_dependency_payload (exc_str e)).
Proof.
  unfold import_failure. intros Hfirst Hclass.
  pose proof (missing_dependency_payload_hint (exc_str e)) as Hhint.
  destruct (import_error w "cv2") as [e1 |] eqn:H1;
    [| destruct (import_error w "mediapipe") as [e2 |] eqn:H2].
  - injection Hfirst as ->. exists "cv2", ["cv2"]. run_script.
    rewrite H1. cbn. rewrite Hclass. cbn. auto 8.
  - injection Hfirst as ->. exists "mediapipe", ["cv2"; "mediapipe"]. run_script.
    rewrite H1, H2. cbn. rewrite Hclass. cbn. auto 8.
  - exists "numpy", ["cv2"; "mediapipe"; "numpy"]. run_script.
    rewrite H1, H2, Hfirst. cbn. rewrite Hclass. cbn. auto 8.
Qed.

Lemma missing_dependency_exits_1_witness :
  import_failure Examples.no_mediapipe =
    Some (ImportError "No module named 'mediapipe'") /\
  is_ImportError (ImportError "No module named 'mediapipe'") = true /\
  exists lib attempts,
    In lib ["cv2"; "mediapipe"; "numpy"] /\
    import_error Examples.no_mediapipe lib =
      Some (ImportError "No module named 'mediapipe'") /\
    status (run (extract_pose_py Examples.no_mediapipe)) = 1 /\
    stdout (run (extract_pose_py Examples.no_mediapipe)) =
      [missing_dependency_payload "No module named 'mediapipe'"] /\
    trace (run (extract_pose_py Examples.no_mediapipe)) =
      (map EImport attempts
       ++ [EPrint (missing_dependency_payload "No module named 'mediapipe'")])%list /\
    is_failure (missing_dependency_payload "No module named 'mediapipe'") /\
    error_contains "Missing Python dependency"
                   (missing_dependency_payload "No module named 'mediapipe'") /\
    error_contains "pip install opencv-python mediapipe numpy"
                   (missing_dependency_payload "No module named 'mediapipe'").
Proof.
  split; [reflexivity |]. split; [reflexivity |].
  exact (missing_dependency_exits_1 Examples.no_mediapipe
           (ImportError "No module named 'mediapipe'") eq_refl eq_refl).
Defined.

(** The claim C6 as the specification words it, for every invocation
    without argument, fails on a machine without MediaPipe: the imports
    come first, so the payload printed is the one of the missing
    dependency, and it holds no usage hint. *)
Lemma no_argument_missing_library_counterexample :
  len (sys_argv Scenes.no_argument_no_mediapipe) < 2 /\
  stdout (run (extract_pose_py Scenes.no_argument_no_mediapipe)) =
    [missing_dependency_payload "No module named 'mediapipe'"] /\
  ~ (exists v,
       In v (stdout (run (extract_pose_py Scenes.no_argument_no_mediapipe))) /\
       error_contains "Usage" v).
Proof.
  split; [reflexivity |]. split; [reflexivity |].
  intros (v & Hin & msg & Hget & Hcontains).
  destruct Hin as [<- | []].
  cbn in Hget. injection Hget as <-.
  vm_compute in Hcontains. discriminate.
Qed.

(** C6, amended. Invoked with no positional argument on a machine where
    the three libraries load, the extractor prints one Failure payload
    whose error message is the usage hint, and exits with status 1. *)
Theorem no_argument_exits_1 (w : World) :
  dependencies_available w = true ->
  len (sys_argv w) < 2 ->
  status (run (extract_pose_py w)) = 1 /\
  exists v,
    stdout (run (extract_pose_py w)) = [v] /\
    is_failure v /\
    get "error" v =
      Some (Str "No image path provided. Usage: python extract_pose.py <image_path>") /\
    error_contains "Usage: python extract_pose.py <image_path>" v.
Proof.
  unfold_outcome. intros Hdeps Hlen.
  run_script.
  destruct (import_error w "cv2"); [discriminate |].
  destruct (import_error w "mediapipe"); [discriminate |].
  destruct (import_error w "numpy"); [discriminate |].
  simpl_run.
  destruct (sys_argv w) as [| script [| image_path rest]] eqn:Hargv.
  - rewrite argv_short_nil. simpl_run. split; [reflexivity |].
    eexists. split; [reflexivity |]. repeat split. eexists. split; reflexivity.
  - rewrite argv_short_one. simpl_run. split; [reflexivity |].
    eexists. split; [reflexivity |]. repeat split. eexists. split; reflexivity.
  - exfalso. pose proof (argv_long script image_path rest) as Hlong.
    apply Z.ltb_ge in Hlong. lia.
Qed.

Lemma no_argument_exits_1_witness :
  dependencies_available Examples.no_argument = true /\
  len (sys_argv Examples.no_argument) < 2 /\
  status (run (extract_pose_py Examples.no_argument)) = 1.
Proof.
  split; [reflexivity |]. split; [reflexivity |].
  apply (no_argument_exits_1 Examples.no_argument); reflexivity.
Defined.

(** The claim C4 as the specification words it, for every path that is
    not an existing regular file, fails in three ways.  The pose model is
    built before the path is looked at: when its constructor raises, the
    message is the one of the outer guard and the status is 1.  When the
    file system refuses the name, [is_file] raises and the message is the
    text of that exception.  And on a machine without MediaPipe the
    payload is the one of the missing dependency, with status 1. *)
Lemma file_not_found_counterexample :
  (is_file Scenes.gone_no_weights "gone.png" = Returns false /\
   sys_argv Scenes.gone_no_weights = ["extract_pose.py"; "gone.png"] /\
   status (run (extract_pose_py Scenes.gone_no_weights)) = 1 /\
   stdout (run (extract_pose_py Scenes.gone_no_weights)) = [
     unexpected_payload Scenes.gone_no_weights
       {| is_ImportError := false; exc_str := "Failed to download model" |}
   ] /\
   ~ (exists v,
        In v (stdout (run (extract_pose_py Scenes.gone_no_weights))) /\
        error_contains "not found" v)) /\
  (is_file Scenes.long_name Scenes.long_path =
     Raises {| is_ImportError := false;
               exc_str := "[Errno 36] File name too long: '"
                          ++ Scenes.long_path ++ "'" |} /\
   sys_argv Scenes.long_name = ["extract_pose.py"; Scenes.long_path] /\
   status (run (extract_pose_py Scenes.long_name)) = 0 /\
   stdout (run (extract_pose_py Scenes.long_name)) = [
     caught_payload Scenes.long_name
       {| is_ImportError := false;
          exc_str := "[Errno 36] File name too long: '"
                     ++ Scenes.long_path ++ "'" |}
   ] /\
   ~ (exists v,
        In v (stdout (run (extract_pose_py Scenes.long_name))) /\
        error_contains "not found" v)) /\
  (is_file Scenes.gone_no_mediapipe "gone.png" = Returns false /\
   sys_argv Scenes.gone_no_mediapipe = ["extract_pose.py"; "gone.png"] /\
   status (run (extract_pose_py Scenes.gone_no_mediapipe)) = 1 /\
   ~ (exists v,
        In v (stdout (run (extract_pose_py Scenes.gone_no_mediapipe))) /\
        error_contains "not found" v)).
Proof.
  repeat (split; [reflexivity |]).
  repeat split; try reflexivity.
  all: intros (v & Hin & msg & Hget & Hcontains).
  all: destruct Hin as [<- | []].
  all: cbn in Hget; injection Hget as <-.
  all: vm_compute in Hcontains; discriminate.
Qed.

(** C4, amended. For a path argument for which the regular-file check
    returns false, on a machine where the three libraries load and the
    pose model is built without raising, the extractor prints one Failure
    payload whose error message contains ["not found"], and the process
    exits with status 0. *)
Theorem file_not_found_exits_0 (w : World) (script image_path : string)
    (rest : list string) :
  dependencies_available w = true ->
  sys_argv w = script :: image_path :: rest ->
  Pose_new w pose_options = Returns tt ->
  is_file w image_path = Returns false ->
  status (run (extract_pose_py w)) = 0 /\
  exists v,
    stdout (run (extract_pose_py w)) = [v] /\
    is_failure v /\
    get "error" v = Some (Str ("Image file not found: " ++ image_path)) /\
    error_contains "not found" v.
Proof.
  unfold_outcome. intros Hdeps Hargv Hpose Hfile.
  run_cases; try discriminate.
  all: rewrite Hargv in *; try discriminate.
  all: match goal with H : _ :: _ :: _ = _ :: _ :: _ |- _ => injection H as <- <- <- end.
  all: try congruence.
  split; [reflexivity |].
  eexists. split; [reflexivity |]. repeat split.
  eexists. split; reflexivity.
Qed.

Lemma file_not_found_exits_0_witness :
  dependencies_available Examples.missing_file = true /\
  sys_argv Examples.missing_file = ["extract_pose.py"; "gone.png"] /\
  Pose_new Examples.missing_file pose_options = Returns tt /\
  is_file Examples.missing_file "gone.png" = Returns false /\
  status (run (extract_pose_py Examples.missing_file)) = 0 /\
  exists v,
    stdout (run (extract_pose_py Examples.missing_file)) = [v] /\
    is_failure v /\
    get "error" v = Some (Str "Image file not found: gone.png") /\
    error_contains "not found" v.
Proof.
  repeat (split; [reflexivity |]).
  apply (file_not_found_exits_0 Examples.missing_file "extract_pose.py" "gone.png" []);
    reflexivity.
Defined.

(** The claim C5 as the specification words it, for every regular file
    that does not decode, fails in four ways.  The message the code
    prints for a text file is "Could not read image file: notes.txt", and
    the lower-case text ["could not read"] is not in it.  With the capital
    C the claim still fails when the constructor of the pose model raises
    (outer guard, status 1), when [cv2.imread] raises instead of returning
    [None] (the message is OpenCV's), and on a machine without MediaPipe
    (missing-dependency payload, status 1). *)
Lemma unreadable_image_counterexample :
  (dependencies_available Examples.text_file = true /\
   sys_argv Examples.text_file = ["extract_pose.py"; "notes.txt"] /\
   Pose_new Examples.text_file pose_options = Returns tt /\
   is_file Examples.text_file "notes.txt" = Returns true /\
   cv2_imread Examples.text_file "notes.txt" = Returns None /\
   stdout (run (extract_pose_py Examples.text_file)) = [
     Dict [
       ("success", Bool false);
       ("error", Str "Could not read image file: notes.txt");
       ("keypoints", List []);
       ("confidence", Float zero)
     ]
   ] /\
   ~ (exists v,
        In v (stdout (run (extract_pose_py Examples.text_file))) /\
        error_contains "could not read" v)) /\
  (sys_argv Scenes.notes_no_weights = ["extract_pose.py"; "notes.txt"] /\
   is_file Scenes.notes_no_weights "notes.txt" = Returns true /\
   cv2_imread Scenes.notes_no_weights "notes.txt" = Returns None /\
   status (run (extract_pose_py Scenes.notes_no_weights)) = 1 /\
   ~ (exists v,
        In v (stdout (run (extract_pose_py Scenes.notes_no_weights))) /\
        error_contains "Could not read" v)) /\
  (sys_argv Scenes.huge_image = ["extract_pose.py"; "scan.png"] /\
   is_file Scenes.huge_image "scan.png" = Returns true /\
   cv2_imread Scenes.huge_image "scan.png" =
     Raises {| is_ImportError := false;
               exc_str := "OpenCV: Maximum supported image dimension is 65500 pixels" |} /\
   ~ (exists v,
        In v (stdout (run (extract_pose_py Scenes.huge_image))) /\
        error_contains "Could not read" v)) /\
  (sys_argv Scenes.notes_no_mediapipe = ["extract_pose.py"; "notes.txt"] /\
   is_file Scenes.notes_no_mediapipe "notes.txt" = Returns true /\
   cv2_imread Scenes.notes_no_mediapipe "notes.txt" = Returns None /\
   status (run (extract_pose_py Scenes.notes_no_mediapipe)) = 1 /\
   ~ (exists v,
        In v (stdout (run (extract_pose_py Scenes.notes_no_mediapipe))) /\
        error_contains "Could not read" v)).
Proof.
  repeat (split; [reflexivity |]).
  repeat split; try reflexivity.
  all: intros (v & Hin & msg & Hget & Hcontains).
  all: destruct Hin as [<- | []].
  all: cbn in Hget; injection Hget as <-.
  all: vm_compute in Hcontains; discriminate.
Qed.

(** C5, amended. For a path that is a regular file and that [cv2.imread]
    does not decode, returning [None], on a machine where the three
    libraries load and the pose model is built without raising, the
    extractor prints one Failure payload whose error message contains
    ["Could not read"], with a capital C, and the process exits with
    status 0. *)
Theorem unreadable_image_exits_0 (w : World) (script image_path : string)
    (rest : list string) :
  dependencies_available w = true ->
  sys_argv w = script :: image_path :: rest ->
  Pose_new w pose_options = Returns tt ->
  is_file w image_path = Returns true ->
  cv2_imread w image_path = Returns None ->
  status (run (extract_pose_py w)) = 0 /\
  exists v,
    stdout (run (extract_pose_py w)) = [v] /\
    is_failure v /\
    get "error" v = Some (Str ("Could not read image file: " ++ image_path)) /\
    error_contains "Could not read" v.
Proof.
  unfold_outcome. intros Hdeps Hargv Hpose Hfile Hread.
  run_cases; try discriminate.
  all: rewrite Hargv in *; try discriminate.
  all: match goal with H : _ :: _ :: _ = _ :: _ :: _ |- _ => injection H as <- <- <- end.
  all: try congruence.
  split; [reflexivity |].
  eexists. split; [reflexivity |]. repeat split.
  eexists. split; reflexivity.
Qed.

Lemma unreadable_image_exits_0_witness :
  dependencies_available Examples.text_file = true /\
  sys_argv Examples.text_file = ["extract_pose.py"; "notes.txt"] /\
  Pose_new Examples.text_file pose_options = Returns tt /\
  is_file Examples.text_file "notes.txt" = Returns true /\
  cv2_imread Examples.text_file "notes.txt" = Returns None /\
  status (run (extract_pose_py Examples.text_file)) = 0 /\
  exists v,
    stdout (run (extract_pose_py Examples.text_file)) = [v] /\
    is_failure v /\
    get "error" v = Some (Str "Could not read image file: notes.txt") /\
    error_contains "Could not read" v.
Proof.
  repeat (split; [reflexivity |]).
  apply (unreadable_image_exits_0 Examples.text_file "extract_pose.py" "notes.txt" []);
    reflexivity.
Defined.

(** C9. Every failure outcome the extractor emits (missing argument,
    missing dependency, file not found, unreadable image, no pose
    detected, exception caught by either guard) carries exactly one
    payload, with [success] false, [keypoints] the empty list and
    [confidence] 0.0.  The one invocation that prints no payload is the
    one ended by an import that raises something other than
    [ImportError]. *)
Theorem failure_payload_shape (w : World) :
  (outcome_of w = ImportCrash /\ stdout (run (extract_pose_py w)) = []) \/
  exists v,
    stdout (run (extract_pose_py w)) = [v] /\
    match outcome_of w with
    | Success => get "success" v = Some (Bool true)
    | MissingArgument | MissingDependency | FileNotFound | UnreadableImage
    | NoPoseDetected | UnexpectedException _ => is_failure v
    | ImportCrash => False
    end.
Proof.
  unfold_outcome. run_cases.
  all: first [ left; split; reflexivity
             | right; eexists; (split; [reflexivity |]);
               first [reflexivity | repeat split] ].
Qed.

(** ** Exit status *)

(** The claim C3 as the specification words it fails: here OpenCV raises
    inside [extract_keypoints], so the outcome is an unexpected exception;
    it is reported with its traceback, and the process exits with
    status 0. *)
Lemma caught_exception_exits_0_counterexample :
  ~ nonzero_exit_as_specified Examples.bad_conversion.
Proof.
  unfold nonzero_exit_as_specified. intros [_ H].
  apply H; [| reflexivity].
  right. right. exists InExtraction. reflexivity.
Qed.

Example bad_conversion_run :
  run (extract_pose_py Examples.bad_conversion) = {|
    trace := [
      EImport "cv2"; EImport "mediapipe"; EImport "numpy"; EArgv;
      EPoseNew pose_options;
      EIsFile "photo.png"; EImread "photo.png";
      ECvtColor {| shape_height := 480; shape_width := 640; pixels := [] |};
      EPrint (Dict [
        ("success", Bool false);
        ("error", Str "OpenCV: Invalid number of channels");
        ("traceback",
         Str "Traceback (most recent call last): OpenCV: Invalid number of channels");
        ("keypoints", List []);
        ("confidence", Float zero)
      ])
    ];
    status := 0
  |}.
Proof. reflexivity. Qed.

(** A second way to a nonzero status that the specification does not
    name: an import that raises something other than [ImportError] is
    caught by no guard, and the process ends with status 1 and an empty
    standard output. *)
Example import_crash_run :
  outcome_of Scenes.broken_mediapipe = ImportCrash /\
  run (extract_pose_py Scenes.broken_mediapipe) = {|
    trace := [EImport "cv2"; EImport "mediapipe"];
    status := 1
  |}.
Proof. split; reflexivity. Qed.

(** C3, amended. The process exits with a nonzero status (namely 1)
    exactly when the outcome is a missing argument, a missing dependency,
    an exception that escapes [extract_keypoints] and reaches the guard of
    [main], or an import that raises something other than [ImportError]
    (which no guard catches: nothing is printed); for every other outcome
    it exits with status 0: file not found, unreadable image, no pose
    detected and an exception caught inside [extract_keypoints] each print
    a Failure payload, and success prints the Success payload. *)
Theorem exit_status_by_outcome (w : World) :
  (status (run (extract_pose_py w)) <> 0 <->
     outcome_of w = MissingArgument \/
     outcome_of w = MissingDependency \/
     outcome_of w = UnexpectedException TopLevel \/
     outcome_of w = ImportCrash) /\
  (status (run (extract_pose_py w)) = 0 \/ status (run (extract_pose_py w)) = 1) /\
  match outcome_of w with
  | ImportCrash => stdout (run (extract_pose_py w)) = []
  | Success =>
      exists image landmarks,
        stdout (run (extract_pose_py w)) = [success_payload image landmarks]
  | MissingArgument | MissingDependency | FileNotFound | UnreadableImage
  | NoPoseDetected | UnexpectedException _ =>
      exists v, stdout (run (extract_pose_py w)) = [v] /\ is_failure v
  end.
Proof.
  unfold_outcome. run_cases.
  all: split; [split; [intros H; try (exfalso; apply H; reflexivity); auto 6
                      | intros [H | [H | [H | H]]]; try discriminate H; discriminate]
              | split; [auto |]].
  all: first [ reflexivity
             | eexists; eexists; reflexivity
             | eexists; split; [reflexivity | repeat split] ].
Qed.

(** ** The pose extractor: success *)

(** C1. Whenever the extractor runs on a valid image in which the model
    detects a pose (the model yielding its 33 landmarks), the Success
    payload it prints has exactly 33 keypoints, the keypoint at position
    [i] has id [i], which lies in [0,32], and the name the canonical table
    gives for [i], and [keypoints_count] is 33. *)
Theorem success_has_33_named_keypoints (w : World) :
  (forall image landmarks,
     pose_process w image = Returns (Some landmarks) ->
     List.length landmarks = 33%nat) ->
  outcome_of w = Success ->
  exists v keypoints,
    stdout (run (extract_pose_py w)) = [v] /\
    get "success" v = Some (Bool true) /\
    get "keypoints" v = Some (List keypoints) /\
    List.length keypoints = 33%nat /\
    get "keypoints_count" v = Some (Int 33) /\
    forall i keypoint,
      nth_error keypoints i = Some keypoint ->
      0 <= Z.of_nat i <= 32 /\
      get "id" keypoint = Some (Int (Z.of_nat i)) /\
      exists name,
        nth_error landmark_names i = Some name /\
        get "name" keypoint = Some (Str name).
Proof.
  unfold_outcome. intros Hmodel Hsuccess.
  revert Hsuccess. run_cases; try discriminate. intros _.
  match goal with H : pose_process _ _ = Returns (Some ?l) |- _ =>
    pose proof (Hmodel _ _ H) as Hlen; set (landmarks := l) in *
  end.
  assert (Hkps : List.length (keypoints_from 0 landmarks) = 33%nat)
    by now rewrite length_keypoints_from.
  eexists. exists (keypoints_from 0 landmarks).
  split; [reflexivity |]. split; [reflexivity |]. split; [reflexivity |].
  split; [assumption |].
  split; [cbn; unfold len; now rewrite Hkps |].
  intros pos kp Hnth.
  assert (Hpos : (pos < 33)%nat).
  { rewrite <- Hkps. apply nth_error_Some. congruence. }
  apply nth_error_keypoints_from in Hnth. destruct Hnth as (landmark & _ & ->).
  split; [lia |]. split; [reflexivity |].
  exists (nth pos landmark_names ""). split.
  - apply nth_error_nth'. exact Hpos.
  - cbn. unfold name_at.
    destruct (Z.ltb_spec (Z.of_nat pos) 33) as [_ | Hge]; [| lia].
    now rewrite Nat2Z.id.
Qed.

Lemma success_has_33_named_keypoints_witness :
  (forall image landmarks,
     pose_process Examples.studio image = Returns (Some landmarks) ->
     List.length landmarks = 33%nat) /\
  outcome_of Examples.studio = Success /\
  exists v keypoints,
    stdout (run (extract_pose_py Examples.studio)) = [v] /\
    get "success" v = Some (Bool true) /\
    get "keypoints" v = Some (List keypoints) /\
    List.length keypoints = 33%nat /\
    get "keypoints_count" v = Some (Int 33) /\
    forall i keypoint,
      nth_error keypoints i = Some keypoint ->
      0 <= Z.of_nat i <= 32 /\
      get "id" keypoint = Some (Int (Z.of_nat i)) /\
      exists name,
        nth_error landmark_names i = Some name /\
        get "name" keypoint = Some (Str name).
Proof.
  assert (Hmodel : forall image landmarks,
            pose_process Examples.studio image = Returns (Some landmarks) ->
            List.length landmarks = 33%nat).
  { intros image landmarks H. injection H as <-. reflexivity. }
  split; [exact Hmodel |]. split; [reflexivity |].
  exact (success_has_33_named_keypoints Examples.studio Hmodel eq_refl).
Defined.


(** The run of an invocation whose outcome is success. *)
Lemma success_run (w : World) :
  outcome_of w = Success ->
  exists image image_rgb landmarks,
    pose_process w image_rgb = Returns (Some landmarks) /\
    stdout (run (extract_pose_py w)) = [success_payload image landmarks].
Proof.
  unfold_outcome. intros Hsuccess.
  revert Hsuccess. run_cases; try discriminate. intros _.
  repeat eexists. eassumption.
Qed.



(** On the sample image the 33 scores are all 0.5, and so is their
    mean. *)
Example studio_confidence :
  exists v,
    stdout (run (extract_pose_py Examples.studio)) = [v] /\
    get "confidence" v = Some (Float Examples.half) /\
    get "keypoints_count" v = Some (Int 33).
Proof. eexists. repeat split. Qed.

(** ** Further properties of the two scripts *)

(** X1. An image in which the model finds no pose: the extractor prints
    the Failure payload with the message "No pose detected in image" and
    exits with status 0. *)
Theorem no_pose_detected_exits_0 (w : World) :
  outcome_of w = NoPoseDetected ->
  status (run (extract_pose_py w)) = 0 /\
  stdout (run (extract_pose_py w)) = [
    Dict [
      ("success", Bool false);
      ("error", Str "No pose detected in image");
      ("keypoints", List []);
      ("confidence", Float zero)
    ]
  ].
Proof.
  unfold_outcome. intros H. revert H.
  run_cases; try discriminate. intros _. split; reflexivity.
Qed.

Lemma no_pose_detected_exits_0_witness :
  outcome_of Scenes.empty_room = NoPoseDetected /\
  status (run (extract_pose_py Scenes.empty_room)) = 0 /\
  stdout (run (extract_pose_py Scenes.empty_room)) = [
    Dict [
      ("success", Bool false);
      ("error", Str "No pose detected in image");
      ("keypoints", List []);
      ("confidence", Float zero)
    ]
  ].
Proof.
  split; [reflexivity |].
  exact (no_pose_detected_exits_0 Scenes.empty_room eq_refl).
Defined.

(** The run of a successful invocation, with everything the world
    answered on the way. *)
Lemma success_run_answers (w : World) :
  outcome_of w = Success ->
  exists script image_path rest image image_rgb landmarks,
    sys_argv w = script :: image_path :: rest /\
    cv2_imread w image_path = Returns (Some image) /\
    cv2_cvtColor w image = Returns image_rgb /\
    pose_process w image_rgb = Returns (Some landmarks) /\
    run (extract_pose_py w) = {|
      trace := (prologue image_path ++
                [EImread image_path; ECvtColor image; EProcess image_rgb;
                 EPrint (success_payload image landmarks)])%list;
      status := 0
    |}.
Proof.
  unfold_outcome. intros Hsuccess.
  revert Hsuccess. run_cases; try discriminate. intros _.
  repeat eexists; eassumption.
Qed.

Lemma nth_error_keypoints_from_Some (landmarks : list Landmark.t) :
  forall idx i landmark,
    nth_error landmarks i = Some landmark ->
    nth_error (keypoints_from idx landmarks) i =
      Some (keypoint_of (idx + Z.of_nat i) (name_at (idx + Z.of_nat i)) landmark).
Proof.
  induction landmarks as [| first rest IH]; intros idx i landmark H.
  - destruct i; discriminate.
  - destruct i as [| i]; cbn [nth_error keypoints_from] in *.
    + injection H as <-. now rewrite Z.add_0_r.
    + rewrite (IH _ _ _ H).
      now replace (idx + 1 + Z.of_nat i) with (idx + Z.of_nat (S i)) by lia.
Qed.

(** X2. Whatever the number of landmarks the model returns, a successful
    run exits with status 0 and prints a payload with one keypoint per
    landmark, in the model's order: the keypoint at position [i] carries the
    id [i], the name [_get_landmark_name] gives for [i], and the x, y, z
    and visibility of landmark [i] unchanged; [keypoints_count] is the
    number of landmarks, [image_dimensions] holds the width and height of
    the decoded image, and [pose_detected] is true. *)
Theorem success_payload_mirrors_landmarks (w : World) :
  outcome_of w = Success ->
  exists image_path image image_rgb landmarks v keypoints,
    nth_error (sys_argv w) 1 = Some image_path /\
    cv2_imread w image_path = Returns (Some image) /\
    cv2_cvtColor w image = Returns image_rgb /\
    pose_process w image_rgb = Returns (Some landmarks) /\
    status (run (extract_pose_py w)) = 0 /\
    stdout (run (extract_pose_py w)) = [v] /\
    get "success" v = Some (Bool true) /\
    get "pose_detected" v = Some (Bool true) /\
    get "keypoints" v = Some (List keypoints) /\
    List.length keypoints = List.length landmarks /\
    get "keypoints_count" v = Some (Int (len landmarks)) /\
    get "image_dimensions" v =
      Some (Dict [("width", Int (shape_width image));
                  ("height", Int (shape_height image))]) /\
    forall i landmark,
      nth_error landmarks i = Some landmark ->
      exists keypoint name,
        nth_error keypoints i = Some keypoint /\
        _get_landmark_name (Z.of_nat i) = Returns name /\
        keypoint = Dict [
          ("id", Int (Z.of_nat i));
          ("name", Str name);
          ("x", Float (Landmark.x landmark));
          ("y", Float (Landmark.y landmark));
          ("z", Float (Landmark.z landmark));
          ("visibility", Float (Landmark.visibility landmark))
        ].
Proof.
  intros Hsuccess.
  destruct (success_run_answers w Hsuccess)
    as (script & image_path & rest & image & image_rgb & landmarks
        & Hargv & Hread & Hcvt & Hproc & Hrun).
  exists image_path, image, image_rgb, landmarks,
    (success_payload image landmarks), (keypoints_from 0 landmarks).
  rewrite Hargv, Hrun.
  repeat (split; [first [reflexivity | assumption | apply length_keypoints_from] |]).
  split.
  { cbn. unfold len. now rewrite length_keypoints_from. }
  split; [reflexivity |].
  intros i landmark Hnth.
  exists (keypoint_of (Z.of_nat i) (name_at (Z.of_nat i)) landmark), (name_at (Z.of_nat i)).
  split; [| split; [| reflexivity]].
  - now rewrite (nth_error_keypoints_from_Some landmarks 0 i landmark Hnth).
  - apply get_landmark_name_nonneg.
    assert (Hi : (i < List.length landmarks)%nat)
      by (apply nth_error_Some; congruence).
    pose proof (landmarks_fit w _ _ Hproc) as Hfit. unfold len in Hfit.
    pose proof sys_maxsize_digits. lia.
Qed.

Lemma success_payload_mirrors_landmarks_witness :
  outcome_of Examples.studio = Success /\
  exists image_path image image_rgb landmarks v keypoints,
    nth_error (sys_argv Examples.studio) 1 = Some image_path /\
    cv2_imread Examples.studio image_path = Returns (Some image) /\
    cv2_cvtColor Examples.studio image = Returns image_rgb /\
    pose_process Examples.studio image_rgb = Returns (Some landmarks) /\
    status (run (extract_pose_py Examples.studio)) = 0 /\
    stdout (run (extract_pose_py Examples.studio)) = [v] /\
    get "success" v = Some (Bool true) /\
    get "pose_detected" v = Some (Bool true) /\
    get "keypoints" v = Some (List keypoints) /\
    List.length keypoints = List.length landmarks /\
    get "keypoints_count" v = Some (Int (len landmarks)) /\
    get "image_dimensions" v =
      Some (Dict [("width", Int (shape_width image));
                  ("height", Int (shape_height image))]) /\
    forall i landmark,
      nth_error landmarks i = Some landmark ->
      exists keypoint name,
        nth_error keypoints i = Some keypoint /\
        _get_landmark_name (Z.of_nat i) = Returns name /\
        keypoint = Dict [
          ("id", Int (Z.of_nat i));
          ("name", Str name);
          ("x", Float (Landmark.x landmark));
          ("y", Float (Landmark.y landmark));
          ("z", Float (Landmark.z landmark));
          ("visibility", Float (Landmark.visibility landmark))
        ].
Proof.
  split; [reflexivity |].
  exact (success_payload_mirrors_landmarks Examples.studio eq_refl).
Defined.



Lemma decimal_inj (a b : Z) : decimal a = decimal b -> a = b.
Proof.
  unfold decimal. intros H.
  apply (f_equal NilZero.int_of_string) in H.
  assert (Hnonnil : forall z, Z.to_int z <> Decimal.Pos Decimal.Nil /\
                              Z.to_int z <> Decimal.Neg Decimal.Nil).
  { intros [| p | p]; cbn; split; try discriminate;
      intros E; injection E as E; now apply DecimalPos.Unsigned.to_uint_nonnil in E. }
  rewrite !NilZero.isi in H by apply Hnonnil.
  injection H as H. now apply DecimalZ.to_int_inj.
Qed.

Lemma landmark_names_NoDup : NoDup landmark_names.
Proof.
  apply (NoDup_count_occ' string_dec).
  intros name Hin.
  repeat (destruct Hin as [<- | Hin]; [reflexivity |]). contradiction.
Qed.

Lemma landmark_names_not_generated (i : nat) (suffix : string) :
  nth_error landmark_names i <> Some ("LANDMARK_" ++ suffix).
Proof.
  intros H. apply nth_error_In in H.
  repeat (destruct H as [H | H]; [discriminate H |]). contradiction.
Qed.

(** The name the lookup returns, when it returns one. *)
Lemma get_landmark_name_returns (idx : Z) (name : string) :
  0 <= idx -> _get_landmark_name idx = Returns name -> name = name_at idx.
Proof.
  intros Hidx. unfold _get_landmark_name, name_at, str_of_int.
  rewrite len_landmark_names.
  destruct (Z.ltb_spec idx 33) as [Hlt | Hge].
  - rewrite (getitem_in_range landmark_names idx "")
      by (rewrite len_landmark_names; split; assumption).
    intros H. now injection H as <-.
  - destruct (10 ^ int_max_str_digits <=? Z.abs idx); [discriminate |].
    intros H. now injection H as <-.
Qed.

Lemma landmark_name_determines_index (i j : Z) :
  0 <= i -> 0 <= j -> name_at i = name_at j -> i = j.
Proof.
  intros Hi Hj H. unfold name_at in H.
  destruct (Z.ltb_spec i 33) as [Hi33 | Hi33], (Z.ltb_spec j 33) as [Hj33 | Hj33].
  - assert (Hin : (Z.to_nat i < List.length landmark_names)%nat)
      by (change (List.length landmark_names) with 33%nat; lia).
    assert (Hjn : (Z.to_nat j < List.length landmark_names)%nat)
      by (change (List.length landmark_names) with 33%nat; lia).
    pose proof (proj1 (NoDup_nth landmark_names "") landmark_names_NoDup
                  (Z.to_nat i) (Z.to_nat j) Hin Hjn H).
    lia.
  - exfalso. apply (landmark_names_not_generated (Z.to_nat i) (decimal j)).
    rewrite <- H. apply nth_error_nth'.
    change (List.length landmark_names) with 33%nat. lia.
  - exfalso. apply (landmark_names_not_generated (Z.to_nat j) (decimal i)).
    rewrite H. apply nth_error_nth'.
    change (List.length landmark_names) with 33%nat. lia.
  - apply decimal_inj. cbn in H. now injection H.
Qed.

(** X4. The name identifies the landmark: two different non-negative
    indices never get the same name, in the table or beyond it. *)
Theorem get_landmark_name_injective (i j : Z) (name : string) :
  0 <= i -> 0 <= j -> i <> j ->
  _get_landmark_name i = Returns name ->
  _get_landmark_name j <> Returns name.
Proof.
  intros Hi Hj Hne Hname_i Hname_j. apply Hne.
  apply landmark_name_determines_index; try assumption.
  rewrite <- (get_landmark_name_returns i name Hi Hname_i).
  now apply get_landmark_name_returns.
Qed.

Lemma get_landmark_name_injective_witness :
  0 <= 32 /\ 0 <= 33 /\ 32 <> 33 /\
  _get_landmark_name 32 = Returns "RIGHT_FOOT_INDEX" /\
  _get_landmark_name 33 <> Returns "RIGHT_FOOT_INDEX".
Proof.
  split; [lia |]. split; [lia |]. split; [lia |]. split; [reflexivity |].
  apply (get_landmark_name_injective 32 33 "RIGHT_FOOT_INDEX");
    [lia | lia | lia | reflexivity].
Defined.

(** X5. An exception raised while the file is checked, decoded, converted
    or given to the model is caught inside [extract_keypoints]: the
    extractor prints a Failure payload whose message is [str(e)] with no
    prefix, with the traceback, and exits with status 0. *)
Theorem exception_in_extraction_reported (w : World) :
  outcome_of w = UnexpectedException InExtraction ->
  exists e,
    ((exists path, is_file w path = Raises e) \/
     (exists path, cv2_imread w path = Raises e) \/
     (exists image, cv2_cvtColor w image = Raises e) \/
     (exists image_rgb, pose_process w image_rgb = Raises e)) /\
    status (run (extract_pose_py w)) = 0 /\
    stdout (run (extract_pose_py w)) = [caught_payload w e].
Proof.
  unfold_outcome. intros H. revert H.
  run_cases; try discriminate; intros _;
    match goal with
    | H : _ = Raises ?e |- _ => exists e
    end;
    (split; [| split; reflexivity]); eauto 6.
Qed.

Lemma exception_in_extraction_reported_witness :
  outcome_of Examples.bad_conversion = UnexpectedException InExtraction /\
  exists e,
    ((exists path, is_file Examples.bad_conversion path = Raises e) \/
     (exists path, cv2_imread Examples.bad_conversion path = Raises e) \/
     (exists image, cv2_cvtColor Examples.bad_conversion image = Raises e) \/
     (exists image_rgb, pose_process Examples.bad_conversion image_rgb = Raises e)) /\
    status (run (extract_pose_py Examples.bad_conversion)) = 0 /\
    stdout (run (extract_pose_py Examples.bad_conversion)) =
      [caught_payload Examples.bad_conversion e].
Proof.
  split; [reflexivity |].
  exact (exception_in_extraction_reported Examples.bad_conversion eq_refl).
Defined.

(** X6. The pose model is built before the path is looked at: when its
    constructor raises, the exception reaches the guard of [main], the
    extractor prints a Failure payload whose message is "Unexpected
    error: " followed by [str(e)], with the traceback, and exits with
    status 1, whatever the path is and without touching the file
    system. *)
Theorem constructor_failure_exits_1 (w : World) (script image_path : string)
    (rest : list string) (e : exception) :
  dependencies_available w = true ->
  sys_argv w = script :: image_path :: rest ->
  Pose_new w pose_options = Raises e ->
  run (extract_pose_py w) = {|
    trace := [EImport "cv2"; EImport "mediapipe"; EImport "numpy"; EArgv;
              EPoseNew pose_options; EPrint (unexpected_payload w e)];
    status := 1
  |}.
Proof.
  unfold_outcome. intros Hdeps Hargv Hpose.
  run_cases; try discriminate; try congruence.
  all: rewrite Hpose in *.
  all: match goal with H : Raises _ = Raises _ |- _ => injection H as <- end.
  reflexivity.
Qed.

Lemma constructor_failure_exits_1_witness :
  dependencies_available Scenes.no_weights = true /\
  sys_argv Scenes.no_weights = ["extract_pose.py"; "photo.png"] /\
  Pose_new Scenes.no_weights pose_options =
    Raises {| is_ImportError := false; exc_str := "Failed to download model" |} /\
  run (extract_pose_py Scenes.no_weights) = {|
    trace := [EImport "cv2"; EImport "mediapipe"; EImport "numpy"; EArgv;
              EPoseNew pose_options;
              EPrint (unexpected_payload Scenes.no_weights
                        {| is_ImportError := false;
                           exc_str := "Failed to download model" |})];
    status := 1
  |}.
Proof.
  repeat (split; [reflexivity |]).
  apply (constructor_failure_exits_1 Scenes.no_weights "extract_pose.py" "photo.png" []);
    reflexivity.
Defined.


Ltac trace_member :=
  repeat match goal with
         | H : In _ _ |- _ => cbn [In app prologue] in H
         | H : _ \/ _ |- _ => destruct H as [H | H]
         | H : False |- _ => contradiction H
         | H : @eq event _ _ |- _ => first [discriminate H | injection H as H]
         end.

(** X8. What the extractor never does.  It asks whether a path is a file
    only for [sys.argv[1]], and only once the libraries have loaded and the
    pose model is built; it decodes only a path found to be a regular
    file; it converts only the image it decoded; and it runs the model only
    on the result of that colour conversion. *)
Theorem extractor_touches_only_checked_inputs (w : World) :
  let t := trace (run (extract_pose_py w)) in
  (forall path,
     In (EIsFile path) t ->
     nth_error (sys_argv w) 1 = Some path /\
     dependencies_available w = true /\
     Pose_new w pose_options = Returns tt) /\
  (forall path,
     In (EImread path) t ->
     nth_error (sys_argv w) 1 = Some path /\ is_file w path = Returns true) /\
  (forall image,
     In (ECvtColor image) t ->
     exists path,
       nth_error (sys_argv w) 1 = Some path /\
       cv2_imread w path = Returns (Some image)) /\
  (forall image_rgb,
     In (EProcess image_rgb) t ->
     exists image, In (ECvtColor image) t /\
                   cv2_cvtColor w image = Returns image_rgb).
Proof.
  unfold_outcome. cbn zeta. run_cases.
  all: repeat split; intros; trace_member; subst; cbn [nth_error];
    rewrite ?Himport, ?Himport0, ?Himport1; eauto.
  all: eexists; split; [| eassumption]; cbn [In]; eauto 10.
Qed.

(** X9. The dependency prober tries the imports cv2, mediapipe, numpy one
    after the other, each at most once; an [ImportError] does not stop it,
    any other exception raised by an import ends the run at once with
    status 1 and nothing printed.  When it gets through the three imports
    it prints its report and ends with status 0.  It does nothing else: no
    argument is read, no file is touched, and the run depends on nothing
    but what the imports do and the version string. *)
Theorem diagnose_run (w : World) :
  let '(attempts, through) := probe w ["cv2"; "mediapipe"; "numpy"] in
  run (Diagnose.diagnose_py w) = {|
    trace := (map EImport attempts
              ++ (if through then [EPrint (dependency_report w)] else []))%list;
    status := if through then 0 else 1
  |}.
Proof.
  unfold Diagnose.diagnose_py, dependency_report, dependencies_available, importable.
  cbn [probe]. run_script.
  destruct (import_error w "cv2") as [e1 |],
    (import_error w "mediapipe") as [e2 |],
    (import_error w "numpy") as [e3 |].
  all: repeat match goal with
              | |- context [is_ImportError ?e] => destruct (is_ImportError e)
              end.
  all: reflexivity.
Qed.

(** X10. The two tools agree as far as the prober gets: the extractor,
    run on the same machine, gets past its import guard and reads its
    arguments exactly when the prober prints a report in which
    [all_dependencies_available] is true; and when the prober prints a
    report in which it is false, the extractor stops with the
    missing-dependency Failure and status 1. *)
Theorem diagnose_predicts_import_guard (w : World) :
  (In EArgv (trace (run (extract_pose_py w))) <->
   exists report,
     stdout (run (Diagnose.diagnose_py w)) = [report] /\
     get "all_dependencies_available" report = Some (Bool true)) /\
  (forall report,
     stdout (run (Diagnose.diagnose_py w)) = [report] ->
     get "all_dependencies_available" report = Some (Bool false) ->
     exists msg,
       stdout (run (extract_pose_py w)) = [missing_dependency_payload msg] /\
       status (run (extract_pose_py w)) = 1).
Proof.
  unfold Diagnose.diagnose_py. run_script.
  destruct (import_error w "cv2") as [e1 |];
    [destruct (is_ImportError e1) |];
    (destruct (import_error w "mediapipe") as [e2 |];
     [destruct (is_ImportError e2) |]);
    (destruct (import_error w "numpy") as [e3 |];
     [destruct (is_ImportError e3) |]).
  all: simpl_run.
  all: split;
    [ split;
      [ intros H;
        first [ solve [exfalso; trace_member]
              | eexists; split; reflexivity ]
      | intros (report & Hout & Hall);
        first [ discriminate Hout
              | injection Hout as <-; discriminate Hall
              | idtac ] ]
    | intros report Hout Hall;
      first [ discriminate Hout
            | injection Hout as <-; discriminate Hall
            | eexists; split; reflexivity ] ].
  repeat (world_case; simpl_run); cbn [In]; auto 10.
Qed.

Lemma diagnose_predicts_import_guard_witness :
  stdout (run (Diagnose.diagnose_py Scenes.bare_python)) =
    [dependency_report Scenes.bare_python] /\
  get "all_dependencies_available" (dependency_report Scenes.bare_python) =
    Some (Bool false) /\
  exists msg,
    stdout (run (extract_pose_py Scenes.bare_python)) =
      [missing_dependency_payload msg] /\
    status (run (extract_pose_py Scenes.bare_python)) = 1.
Proof.
  split; [reflexivity |]. split; [reflexivity |].
  apply (proj2 (diagnose_predicts_import_guard Scenes.bare_python)
           (dependency_report Scenes.bare_python));
    reflexivity.
Defined.

(** X11. When several libraries are missing the extractor reports only the
    first, in the order cv2, mediapipe, numpy: the imports after it are
    not attempted and the message carries the text of that one
    [ImportError]. *)
Theorem first_missing_dependency_reported (w : World) (attempts : list string)
    (msg : string) :
  first_missing w ["cv2"; "mediapipe"; "numpy"] = Some (attempts, msg) ->
  run (extract_pose_py w) = {|
    trace := (map EImport attempts ++ [EPrint (missing_dependency_payload msg)])%list;
    status := 1
  |}.
Proof.
  cbn [first_missing]. run_script.
  destruct (import_error w "cv2") as [e1 |];
    [destruct (is_ImportError e1)
    | destruct (import_error w "mediapipe") as [e2 |];
      [destruct (is_ImportError e2)
      | destruct (import_error w "numpy") as [e3 |];
        [destruct (is_ImportError e3) |]]];
    intros H; try discriminate H; injection H as <- <-; reflexivity.
Qed.

Lemma first_missing_dependency_reported_witness :
  first_missing Scenes.bare_python ["cv2"; "mediapipe"; "numpy"] =
    Some (["cv2"], "No module named 'cv2'") /\
  import_error Scenes.bare_python "numpy" =
    Some (ImportError "No module named 'numpy'") /\
  run (extract_pose_py Scenes.bare_python) = {|
    trace := [EImport "cv2";
              EPrint (missing_dependency_payload "No module named 'cv2'")];
    status := 1
  |}.
Proof.
  split; [reflexivity |]. split; [reflexivity |].
  exact (first_missing_dependency_reported Scenes.bare_python
           ["cv2"] "No module named 'cv2'" eq_refl).
Defined.

(** X12. The keys tell the outcomes apart: the payload has an [error]
    entry exactly when the invocation did not succeed, and a [traceback]
    entry exactly when an exception was caught, by either guard.  (The one
    invocation without a payload is the one ended by an import that raises
    something other than [ImportError].) *)
Theorem payload_keys_by_outcome (w : World) :
  (outcome_of w = ImportCrash /\ stdout (run (extract_pose_py w)) = []) \/
  exists v,
    stdout (run (extract_pose_py w)) = [v] /\
    (get "error" v <> None <-> outcome_of w <> Success) /\
    (get "traceback" v <> None <-> exists g, outcome_of w = UnexpectedException g).
Proof.
  unfold_outcome. run_cases.
  all: first [left; split; reflexivity | right].
  all: eexists; (split; [reflexivity |]).
  all: cbn [get assoc_get String.eqb Ascii.eqb Bool.eqb].
  all: split; split; intros H;
    first [ discriminate
          | eexists; reflexivity
          | exfalso; apply H; reflexivity
          | destruct H as [g H]; discriminate H ].
Qed.

(** ** The confidence never leaves the unit interval *)

(** Rounding never crosses a multiple of [2 ^ eb]: a bound [K * 2 ^ eb] on
    the exact value is a bound on the float obtained. *)
Lemma binary_round_aux_grid (N D ex eb K : Z) :
  0 <= N -> 0 < D -> -1074 <= ex <= eb -> eb <= 970 ->
  N < D * 2 ^ (eb + 53 - ex) ->
  0 <= K -> N <= K * 2 ^ (eb - ex) * D ->
  exists mr er,
    binary_round_aux prec emax false (N / D) ex (loc_of N D) = nonneg_float mr er /\
    0 <= mr /\ ex <= er /\
    mr * 2 ^ (er - ex) <= K * 2 ^ (eb - ex).
Proof.
  intros HN HD Hex Heb Hbound HK HNK.
  set (m := N / D).
  assert (Hm : 0 <= m) by (apply Z.div_pos; lia).
  assert (Hmlt : m < 2 ^ (eb + 53 - ex)).
  { apply Z.div_lt_upper_bound; lia. }
  set (d := Zdigits2 m).
  assert (Hd0 : 0 <= d) by apply Zdigits2_nonneg.
  assert (Hd : d <= eb + 53 - ex) by (apply Zdigits2_le; lia).
  assert (HmD : N < D * 2 ^ d).
  { pose proof (Zdigits2_upper m Hm) as Hup. fold d in Hup.
    pose proof (Z.mod_pos_bound N D HD) as Hrem.
    pose proof (Z.div_mod N D ltac:(lia)) as Hdiv. fold m in Hdiv. nia. }
  unfold binary_round_aux, shr_fexp. fold m. fold d. rewrite fexp_eq.
  set (n1 := Z.max (d + ex - 53) (-1074) - ex).
  destruct (shr_located N D (shr_record_of_loc m (loc_of N D)) ex n1 HN HD
              (located_of_loc N D)) as (mrs1 & -> & Hloc1).
  set (s1 := Z.max n1 0) in *. set (e1 := ex + s1).
  assert (Hs1 : 0 <= s1 <= eb - ex) by (unfold s1, n1; lia).
  assert (Hs1d : d - 53 <= s1) by (unfold s1, n1; lia).
  pose proof (pow2_pos s1 ltac:(lia)) as Hp1.
  set (D1 := D * 2 ^ s1) in *.
  assert (HD1 : 0 < D1) by (unfold D1; nia).
  destruct (round_nearest_even_located N D1 mrs1 HN HD1 Hloc1) as [Hm1 Herr].
  set (m1 := round_nearest_even (shr_m mrs1) (loc_of_shr_record mrs1)) in *.
  assert (Hfloor1 : N / D1 < 2 ^ 53).
  { apply Z.div_lt_upper_bound; [lia |].
    assert (2 ^ d <= 2 ^ (s1 + 53)) by (apply pow2_le; lia).
    rewrite pow2_split in * by lia. unfold D1. nia. }
  assert (Hfloor0 : 0 <= N / D1) by (apply Z.div_pos; lia).
  assert (Hm1' : 0 <= m1 <= 2 ^ 53) by lia.
  (* second shift *)
  rewrite fexp_eq.
  set (n2 := Z.max (Zdigits2 m1 + e1 - 53) (-1074) - e1).
  assert (Hexact : located m1 1 (shr_record_of_loc m1 loc_Exact)).
  { split; cbn [shr_m shr_record_of_loc loc_of_shr_record].
    - now rewrite Z.div_1_r.
    - unfold loc_of. now rewrite Z.mod_1_r. }
  destruct (shr_located m1 1 (shr_record_of_loc m1 loc_Exact) e1 n2
              ltac:(lia) ltac:(lia) Hexact) as (mrs2 & -> & [Hm2 _]).
  rewrite Z.mul_1_l in Hm2.
  assert (Hn2 : (Z.max n2 0 = 0) \/ (Z.max n2 0 = 1 /\ m1 = 2 ^ 53)).
  { destruct (Z.eq_dec m1 (2 ^ 53)) as [E | E].
    - right. split; [| assumption]. unfold n2. rewrite E.
      change (Zdigits2 (2 ^ 53)) with 54. unfold e1. lia.
    - left. assert (Zdigits2 m1 <= 53) by (apply Zdigits2_le; lia).
      unfold n2, e1. lia. }
  exists (shr_m mrs2), (e1 + Z.max n2 0).
  assert (Hval : shr_m mrs2 * 2 ^ (Z.max n2 0) = m1 /\ 0 <= shr_m mrs2).
  { destruct Hn2 as [E | [E Em]]; rewrite Hm2, E.
    - rewrite Z.pow_0_r, Z.div_1_r. lia.
    - rewrite Em. split; [reflexivity | apply Z.div_pos; lia]. }
  destruct Hval as [Hval Hm2pos].
  split.
  - destruct (shr_m mrs2) as [| p | p]; [reflexivity | | lia].
    cbn [nonneg_float].
    destruct (Z.leb_spec (e1 + Z.max n2 0) (emax - prec)) as [_ | Hover];
      [reflexivity |].
    exfalso. unfold emax, prec, e1 in Hover. lia.
  - split; [assumption |]. split; [unfold e1; lia |].
    replace (e1 + Z.max n2 0 - ex) with (Z.max n2 0 + s1) by (unfold e1; lia).
    rewrite pow2_split by lia.
    replace (shr_m mrs2 * (2 ^ Z.max n2 0 * 2 ^ s1)) with (m1 * 2 ^ s1)
      by (rewrite <- Hval; ring).
    replace (eb - ex) with (eb - ex - s1 + s1) in HNK |- * by lia.
    rewrite (pow2_split (eb - ex - s1) s1) in HNK |- * by lia.
    pose proof (pow2_pos (eb - ex - s1) ltac:(lia)) as HG.
    set (G := 2 ^ (eb - ex - s1)) in *.
    assert (HND1 : N <= K * G * D1) by (unfold D1; lia).
    assert (Hm1K : m1 <= K * G) by nia.
    rewrite Z.mul_assoc. apply Z.mul_le_mono_nonneg_r; lia.
Qed.

(** Rounding the dyadic number [M * 2 ^ ez] keeps it below an integer
    bound [K]. *)
Lemma binary_round_le (M : positive) (ez K : Z) :
  -1074 <= ez -> 0 <= K <= 63 ->
  Zpos M * 2 ^ (ez + 1074) <= K * 2 ^ 1074 ->
  ulps (binary_round prec emax false M ez) <= K * 2 ^ 1074.
Proof.
  intros Hez HK Hle.
  pose proof (pow2_pos (ez + 1074) ltac:(lia)) as Hpz.
  assert (Hlt : Zpos M * 2 ^ (ez + 1074) < 2 ^ 1080).
  { apply Z.le_lt_trans with (K * 2 ^ 1074); [assumption |].
    change (2 ^ 1080) with (64 * 2 ^ 1074).
    apply Z.mul_lt_mono_pos_r; [apply pow2_pos |]; lia. }
  assert (Hez6 : ez < 6).
  { assert (2 ^ (ez + 1074) < 2 ^ 1080) by nia.
    apply pow2_lt_inv in H; lia. }
  assert (HM : Zpos M < 2 ^ (6 - ez)).
  { apply Z.mul_lt_mono_pos_r with (p := 2 ^ (ez + 1074)); [assumption |].
    rewrite <- pow2_split by lia.
    replace (6 - ez + (ez + 1074)) with 1080 by lia. assumption. }
  assert (Hdig : Zdigits2 (Zpos M) <= 6 - ez) by (apply Zdigits2_le; lia).
  unfold binary_round.
  change (Zpos (digits2_pos M)) with (Zdigits2 (Zpos M)). rewrite fexp_eq.
  set (target := Z.max (Zdigits2 (Zpos M) + ez - 53) (-1074)).
  destruct (shl_align_spec M ez target) as [Hsnd Hfst].
  destruct (shl_align M ez target) as [mz ez2]. cbn [fst snd] in Hsnd, Hfst.
  assert (Hez2 : -1074 <= ez2 <= -47) by (unfold target in *; lia).
  assert (Hshift : 0 <= ez - ez2) by lia.
  rewrite <- Hsnd in Hfst.
  pose proof (pow2_pos (ez2 + 1074) ltac:(lia)) as Hp2.
  set (P := 2 ^ (ez2 + 1074)) in *.
  assert (HP47 : 2 ^ 47 * 2 ^ (-47 - ez2) * P = 2 ^ 1074).
  { unfold P. rewrite <- !pow2_split by lia. f_equal. lia. }
  assert (HMP : Zpos mz * P = Zpos M * 2 ^ (ez + 1074)).
  { rewrite Hfst. unfold P. rewrite <- Z.mul_assoc, <- pow2_split by lia.
    do 2 f_equal. lia. }
  destruct (binary_round_aux_grid (Zpos mz) 1 ez2 (-47) (K * 2 ^ 47))
    as (mr & er & Hr & Hmr & Her & Hgrid); try lia.
  { rewrite Hfst, Z.mul_1_l.
    replace (-47 + 53 - ez2) with (6 - ez + (ez - ez2)) by lia.
    rewrite pow2_split by lia.
    pose proof (pow2_pos (ez - ez2) Hshift).
    apply Z.mul_lt_mono_pos_r; assumption. }
  { rewrite Z.mul_1_r.
    apply Z.mul_le_mono_pos_r with (p := P); [assumption |].
    rewrite HMP.
    replace (K * 2 ^ 47 * 2 ^ (-47 - ez2) * P) with (K * (2 ^ 47 * 2 ^ (-47 - ez2) * P))
      by ring.
    now rewrite HP47. }
  rewrite Z.div_1_r, loc_of_1 in Hr. rewrite Hr.
  rewrite ulps_nonneg_float by assumption.
  replace (er + 1074) with (er - ez2 + (ez2 + 1074)) by lia.
  rewrite (pow2_split (er - ez2) (ez2 + 1074)) by lia. fold P.
  rewrite Z.mul_assoc.
  replace (K * 2 ^ 1074) with (K * 2 ^ 47 * 2 ^ (-47 - ez2) * P)
    by (rewrite <- HP47; ring).
  apply Z.mul_le_mono_nonneg_r; lia.
Qed.

(** The float sum of two non-negative floats does not exceed an integer
    that bounds their exact sum. *)
Lemma fadd_le (a b : float) (K : Z) :
  nonneg a -> nonneg b -> 0 <= K <= 63 ->
  ulps a + ulps b <= K * 2 ^ 1074 ->
  ulps (fadd a b) <= K * 2 ^ 1074.
Proof.
  intros Ha Hb HK Hsum.
  pose proof (ulps_nonneg a) as Ha0. pose proof (ulps_nonneg b) as Hb0.
  destruct a as [sa | sa | | [] ma ea]; try contradiction;
    destruct b as [sb | sb | | [] mb eb]; try contradiction.
  - destruct sa, sb; cbv [fadd SFadd ulps] in *; lia.
  - cbv [fadd SFadd]. cbn [ulps] in *. lia.
  - cbv [fadd SFadd]. cbn [ulps] in *. lia.
  - cbn [nonneg ulps] in *. unfold fadd, SFadd. cbv [cond_Zopp].
    set (ez := Z.min ea eb).
    destruct (shl_align_spec ma ea ez) as [_ Hma].
    destruct (shl_align_spec mb eb ez) as [_ Hmb].
    rewrite Z.min_r in Hma, Hmb by (unfold ez; lia).
    set (ma' := fst (shl_align ma ea ez)) in *.
    set (mb' := fst (shl_align mb eb ez)) in *.
    change (Zpos ma' + Zpos mb') with (Zpos (ma' + mb')).
    cbv beta iota delta [binary_normalize].
    assert (Hval : Zpos (ma' + mb') * 2 ^ (ez + 1074)
                   = Zpos ma * 2 ^ (ea + 1074) + Zpos mb * 2 ^ (eb + 1074)).
    { rewrite Pos2Z.inj_add, Hma, Hmb.
      replace (ea + 1074) with (ea - ez + (ez + 1074)) by lia.
      replace (eb + 1074) with (eb - ez + (ez + 1074)) by lia.
      rewrite (pow2_split (ea - ez)), (pow2_split (eb - ez)) by (unfold ez; lia).
      ring. }
    rewrite <- Hval in Hsum.
    apply binary_round_le; [unfold ez; lia | assumption | assumption].
Qed.

(** The float quotient of a non-negative float by a small integer [n]
    does not exceed 1 when the float does not exceed [n]. *)
Lemma fdiv_le_one (t : float) (n : Z) :
  nonneg t -> 1 <= n <= 63 -> ulps t <= n * 2 ^ 1074 ->
  ulps (fdiv t (float_of_int n)) <= 2 ^ 1074.
Proof.
  intros Ht Hn Hle.
  pose proof (pow2_pos 1074 ltac:(lia)) as Hp.
  destruct (float_of_int_small n Hn) as (my & ey & -> & Hey & Hmy & Hdmy).
  destruct t as [st | st | | [] mx ex]; try contradiction.
  - cbv [fdiv SFdiv ulps]. lia.
  - cbn [nonneg ulps] in *. unfold fdiv, SFdiv.
    pose proof (SFdiv_core_binary_spec mx my ex ey) as Hcore. cbv zeta in Hcore.
    rewrite Hcore. clear Hcore. cbn [xorb]. rewrite Hdmy, fexp_eq.
    set (d1 := Zdigits2 (Zpos mx)).
    set (e' := Z.min (Z.max (d1 + ex - (53 + ey) - 53) (-1074)) (ex - ey)).
    set (N := Zpos mx * 2 ^ (ex - ey - e')).
    set (P := 2 ^ (- ey)) in *.
    assert (HP : 0 < P) by (apply pow2_pos; lia).
    assert (Hmy53 : Zpos my < 2 ^ 53).
    { pose proof (Zdigits2_upper (Zpos my) ltac:(lia)) as H. now rewrite Hdmy in H. }
    assert (Hlt : Zpos mx * 2 ^ (ex + 1074) < n * 2 ^ 1080).
    { apply Z.le_lt_trans with (n * 2 ^ 1074); [assumption |].
      apply Z.mul_lt_mono_pos_l; [lia |].
      apply Z.pow_lt_mono_r; lia. }
    assert (Hd1 : d1 + ex - ey <= 59).
    { pose proof (Zdigits2_lower (Zpos mx) ltac:(lia)) as Hlow. fold d1 in Hlow.
      assert (Hd1pos : 1 <= d1) by (unfold d1; cbn; lia).
      assert (H1 : 2 ^ (d1 - 1) * 2 ^ (ex + 1074) * P < 2 ^ 53 * 2 ^ 1080).
      { pose proof (pow2_pos (ex + 1074) ltac:(lia)) as Hq.
        pose proof (pow2_pos 1080 ltac:(lia)) as Hq'.
        apply Z.le_lt_trans with (Zpos mx * 2 ^ (ex + 1074) * P).
        - apply Z.mul_le_mono_nonneg_r; [lia |].
          apply Z.mul_le_mono_nonneg_r; lia.
        - apply Z.lt_le_trans with (n * 2 ^ 1080 * P).
          + apply Z.mul_lt_mono_pos_r; assumption.
          + replace (n * 2 ^ 1080 * P) with (n * P * 2 ^ 1080) by ring.
            rewrite <- Hmy. apply Z.mul_le_mono_nonneg_r; lia. }
      unfold P in H1. rewrite <- !pow2_split in H1 by lia.
      apply pow2_lt_inv in H1; lia. }
    assert (He' : -1074 <= e' <= -47) by (unfold e'; lia).
    assert (Hs : 0 <= ex - ey - e') by (unfold e'; lia).
    assert (HN : 0 <= N).
    { unfold N. pose proof (pow2_pos (ex - ey - e') Hs). lia. }
    set (Q := 2 ^ (e' + 1074)).
    assert (HQ : 0 < Q) by (apply pow2_pos; lia).
    assert (E3 : N * Q = Zpos mx * 2 ^ (ex + 1074) * P).
    { unfold Q, N, P. rewrite <- !Z.mul_assoc, <- !pow2_split by lia.
      f_equal. f_equal. lia. }
    assert (E47 : 2 ^ 47 * 2 ^ (-47 - e') * Q = 2 ^ 1074).
    { unfold Q. rewrite <- !pow2_split by lia. f_equal. lia. }
    assert (HND : N < Zpos my * 2 ^ (-47 + 53 - e')).
    { apply Z.mul_lt_mono_pos_r with (p := Q); [assumption |].
      rewrite E3. unfold Q. rewrite <- !Z.mul_assoc, <- !pow2_split by lia.
      replace (-47 + 53 - e' + (e' + 1074)) with 1080 by lia.
      rewrite Hmy.
      replace (n * P * 2 ^ 1080) with (n * 2 ^ 1080 * P) by ring.
      rewrite Z.mul_assoc. apply Z.mul_lt_mono_pos_r; assumption. }
    assert (HNK : N <= 2 ^ 47 * 2 ^ (-47 - e') * Zpos my).
    { apply Z.mul_le_mono_pos_r with (p := Q); [assumption |].
      rewrite E3.
      replace (2 ^ 47 * 2 ^ (-47 - e') * Zpos my * Q)
        with (2 ^ 47 * 2 ^ (-47 - e') * Q * Zpos my) by ring.
      rewrite E47, Hmy.
      replace (2 ^ 1074 * (n * P)) with (n * 2 ^ 1074 * P) by ring.
      apply Z.mul_le_mono_nonneg_r; lia. }
    destruct (binary_round_aux_grid N (Zpos my) e' (-47) (2 ^ 47)
                HN ltac:(lia) He' ltac:(lia) HND ltac:(lia) HNK)
      as (mr & er & -> & Hmr & Her & Hgrid).
    rewrite ulps_nonneg_float by assumption.
    replace (er + 1074) with (er - e' + (e' + 1074)) by lia.
    rewrite (pow2_split (er - e')) by lia. fold Q.
    rewrite Z.mul_assoc, <- E47.
    apply Z.mul_le_mono_nonneg_r; lia.
Qed.

(** The running sum of the loop never exceeds the number of scores
    added. *)
Lemma fold_fadd_le (vs : list float) :
  forall (acc : float) (k : Z),
    Forall (fun v => in_unit_interval v = true) vs ->
    nonneg acc ->
    0 <= k -> k + len vs <= 63 ->
    ulps acc <= k * 2 ^ 1074 ->
    nonneg (fold_left fadd vs acc) /\
    ulps (fold_left fadd vs acc) <= (k + len vs) * 2 ^ 1074.
Proof.
  induction vs as [| v rest IH]; intros acc k Hvs Hacc Hk Hlen Hle.
  - cbn [fold_left]. unfold len. cbn [List.length Z.of_nat].
    rewrite Z.add_0_r. split; assumption.
  - inversion Hvs as [| v' rest' Hv Hrest]; subst.
    apply in_unit_interval_bound in Hv. destruct Hv as [Hvn Hvle].
    assert (Hlen' : len (v :: rest) = 1 + len rest).
    { unfold len. cbn [List.length]. lia. }
    rewrite Hlen' in *.
    pose proof (len_nonneg rest) as Hrest0.
    pose proof (pow2_pos 1074 ltac:(lia)) as Hp.
    assert (Hsum : ulps acc + ulps v <= (k + 1) * 2 ^ 1074) by lia.
    assert (Hn' : nonneg (fadd acc v)).
    { apply fadd_bound; try assumption.
      apply Z.le_lt_trans with ((k + 1) * 2 ^ 1074); [assumption |].
      change (2 ^ 1080) with (64 * 2 ^ 1074).
      apply Z.mul_lt_mono_pos_r; lia. }
    cbn [fold_left].
    replace (k + (1 + len rest)) with (k + 1 + len rest) by lia.
    apply IH; try assumption; try lia.
    apply fadd_le; try assumption; lia.
Qed.

Lemma to_Q_unit (f : float) :
  nonneg f -> ulps f <= 2 ^ 1074 -> (0 <= to_Q f <= 1)%Q.
Proof.
  intros Hf Hle. rewrite (to_Q_ulps f Hf).
  pose proof (ulps_nonneg f) as H0.
  assert (HI : (0 < 2 ^ (-1074))%Q) by (apply Qpower_0_lt; reflexivity).
  assert (Hone : (inject_Z (2 ^ 1074) * 2 ^ (-1074) == 1)%Q).
  { rewrite Zpower_Qpower by lia. change (inject_Z 2) with 2%Q.
    rewrite <- Qpower_plus by discriminate. reflexivity. }
  rewrite Zle_Qle in H0, Hle.
  set (u := inject_Z (ulps f)) in *. set (I := (2 ^ (-1074))%Q) in *.
  split.
  - apply Qmult_le_0_compat; [exact H0 | now apply Qlt_le_weak].
  - rewrite <- Hone. apply Qmult_le_compat_r; [exact Hle | now apply Qlt_le_weak].
Qed.

(** X13. The confidence is a score in the unit interval: when the
    visibility scores are floats in [0,1] (at most 63 of them), the
    [confidence] of the Success payload is a finite float whose value
    lies between 0 and 1 inclusive; the rounding of the sum and of the
    division never carries it above 1. *)
Theorem confidence_in_unit_interval (w : World) :
  (forall image landmarks,
     pose_process w image = Returns (Some landmarks) ->
     (List.length landmarks <= 63)%nat /\
     Forall (fun landmark => in_unit_interval (Landmark.visibility landmark) = true)
            landmarks) ->
  outcome_of w = Success ->
  exists v confidence,
    stdout (run (extract_pose_py w)) = [v] /\
    get "confidence" v = Some (Float confidence) /\
    is_finite confidence = true /\
    (0 <= to_Q confidence <= 1)%Q.
Proof.
  intros Hmodel Hsuccess.
  destruct (success_run w Hsuccess) as (image & image_rgb & landmarks & Hproc & ->).
  destruct (Hmodel _ _ Hproc) as [Hlen Hunit].
  unfold success_payload. eexists. eexists.
  split; [reflexivity |]. split; [reflexivity |].
  destruct landmarks as [| landmark rest] eqn:Elandmarks.
  - split; [reflexivity |]. cbn. split; discriminate.
  - rewrite <- Elandmarks in Hlen, Hunit |- *.
    assert (Hcount : 1 <= len (keypoints_from 0 landmarks) <= 63).
    { unfold len. rewrite length_keypoints_from, Elandmarks in *.
      cbn [List.length] in *. lia. }
    assert (Htruthy : truthy (List (keypoints_from 0 landmarks)) = true).
    { rewrite Elandmarks. reflexivity. }
    rewrite Htruthy. unfold total_of.
    set (vs := map Landmark.visibility landmarks).
    assert (Hvs : Forall (fun v => in_unit_interval v = true) vs)
      by (apply Forall_map; exact Hunit).
    assert (Hlenvs : len vs = len (keypoints_from 0 landmarks)).
    { unfold len, vs. now rewrite length_map, length_keypoints_from. }
    pose proof (pow2_pos 1074 ltac:(lia)) as Hp.
    destruct (fold_fadd_le vs zero 0 Hvs I ltac:(lia) ltac:(lia)
                ltac:(cbn [ulps zero]; lia)) as [Htotal Hle].
    rewrite Z.add_0_l, Hlenvs in Hle.
    set (n := len (keypoints_from 0 landmarks)) in *.
    set (total := fold_left fadd vs zero) in *.
    assert (Hconf : nonneg (fdiv total (float_of_int n))).
    { apply fdiv_bound; [assumption | lia |].
      apply Z.le_lt_trans with (n * 2 ^ 1074); [assumption |].
      apply Z.mul_lt_mono_pos_l; [lia |]. apply Z.pow_lt_mono_r; lia. }
    split; [now apply nonneg_is_finite |].
    apply to_Q_unit; [assumption |].
    apply fdiv_le_one; [assumption | lia | assumption].
Qed.

Lemma confidence_in_unit_interval_witness :
  (forall image landmarks,
     pose_process Examples.studio image = Returns (Some landmarks) ->
     (List.length landmarks <= 63)%nat /\
     Forall (fun landmark => in_unit_interval (Landmark.visibility landmark) = true)
            landmarks) /\
  outcome_of Examples.studio = Success /\
  exists v confidence,
    stdout (run (extract_pose_py Examples.studio)) = [v] /\
    get "confidence" v = Some (Float confidence) /\
    is_finite confidence = true /\
    (0 <= to_Q confidence <= 1)%Q.
Proof.
  assert (Hmodel : forall image landmarks,
            pose_process Examples.studio image = Returns (Some landmarks) ->
            (List.length landmarks <= 63)%nat /\
            Forall (fun landmark =>
                      in_unit_interval (Landmark.visibility landmark) = true)
                   landmarks).
  { intros image landmarks H. injection H as <-. split.
    - apply Nat.leb_le. reflexivity.
    - repeat constructor. }
  split; [exact Hmodel |]. split; [reflexivity |].
  exact (confidence_in_unit_interval Examples.studio Hmodel eq_refl).
Defined.

